(** * whisper_live_server.py: the WhisperLive launcher, embedded in Rocq

    The launcher (src/features/common/ai/providers/whisper_live_server.py)
    parses three command-line options, mirrors the VAD threshold into
    [os.environ], replaces [VoiceActivityDetector.__init__] by a wrapper
    reading that variable, and starts the transcription server.

    Layout of the development:
    - [PyText]    characters and strings as the Python built-ins see them;
    - [PyFloat]   binary64 floats: [float(str)] and [repr(float)];
    - [PyInt]     [int(str)] and [str(int)];
    - [PyObj]     the dynamically typed values the script handles,
                  exceptions, [str()], [float()], [in];
    - [Argparse]  [ArgumentParser.parse_args] for optional [store]
                  actions and [-h/--help] (CPython 3.11's argparse.py);
    - [Launcher]  the script itself: [patched_init], the module body
                  installing it, and [main].

    A Python [str] is a Rocq [string] whose characters are the code points
    U+0000..U+00FF.  A Python [float] is an IEEE-754 binary64 value, given by
    the standard library's [spec_float] with [prec = 53] and [emax = 1024]. *)

From Stdlib Require Import ZArith Ascii String List Bool Lia.
From Stdlib Require Import DecimalString.
From Stdlib Require Import Floats.SpecFloat.
From stdpp Require Import base option gmap strings.

Local Open Scope string_scope.
Local Open Scope Z_scope.

(* ===================================================================== *)
(** ** Text *)
(* ===================================================================== *)

Module PyText.

Definition chars (s : string) : list ascii := list_ascii_of_string s.
Definition text (l : list ascii) : string := string_of_list_ascii l.

Definition code (c : ascii) : Z := Z.of_N (N_of_ascii c).

(** ['0' <= c <= '9'] *)
Definition is_digit (c : ascii) : bool := (48 <=? code c) && (code c <=? 57).

Definition digit_value (c : ascii) : Z := code c - 48.

(** The characters [float()] and [int()] skip at both ends of their
    argument: C's [Py_ISSPACE] ('\t' '\n' '\v' '\f' '\r' ' '), and, since
    the string is first passed through
    [_PyUnicode_TransformDecimalAndSpaceToASCII], the two Unicode spaces
    below U+0100, NEL (U+0085) and NBSP (U+00A0). *)
Definition is_space (c : ascii) : bool :=
  ((9 <=? code c) && (code c <=? 13)) || (code c =? 32)
  || (code c =? 133) || (code c =? 160).

(** [Py_TOLOWER]: ASCII letters only. *)
Definition to_lower (c : ascii) : ascii :=
  if (65 <=? code c) && (code c <=? 90)
  then ascii_of_N (N_of_ascii c + 32) else c.

Fixpoint drop_while (p : ascii -> bool) (l : list ascii) : list ascii :=
  match l with
  | c :: t => if p c then drop_while p t else l
  | [] => []
  end.

Fixpoint take_while (p : ascii -> bool) (l : list ascii) : list ascii :=
  match l with
  | c :: t => if p c then c :: take_while p t else []
  | [] => []
  end.

(** Leading and trailing white space removed. *)
Definition strip (l : list ascii) : list ascii :=
  rev (drop_while is_space (rev (drop_while is_space l))).

(** Value of a run of decimal digits, most significant first. *)
Definition digits_value (ds : list ascii) : Z :=
  fold_left (fun acc c => 10 * acc + digit_value c) ds 0.

(** [_Py_string_to_number_with_underscores]: an underscore is legal only
    between two digits.  [prev] is the previous character, if any. *)
Fixpoint underscores_ok (prev : option ascii) (l : list ascii) : bool :=
  match l with
  | [] => match prev with
          | Some p => negb (Ascii.eqb p "_")
          | None => true
          end
  | c :: t =>
      (if Ascii.eqb c "_"
       then match prev with Some p => is_digit p | None => false end
       else match prev with
            | Some p => if Ascii.eqb p "_" then is_digit c else true
            | None => true
            end)
      && underscores_ok (Some c) t
  end.

Definition remove_underscores (l : list ascii) : list ascii :=
  List.filter (fun c => negb (Ascii.eqb c "_")) l.

(** An optional sign: [(negative, rest)]. *)
Definition take_sign (l : list ascii) : bool * list ascii :=
  match l with
  | c :: t => if Ascii.eqb c "-" then (true, t)
              else if Ascii.eqb c "+" then (false, t)
              else (false, l)
  | [] => (false, [])
  end.

(** [c in s] for a one-character [c]. *)
Definition contains_char (c : ascii) (s : string) : bool :=
  existsb (Ascii.eqb c) (chars s).

(** [needle in line]: [line] has [needle] as a contiguous substring. *)
Definition has_substring (needle line : string) : Prop :=
  exists before after, line = before ++ needle ++ after.

(** Decimal numeral of an integer, as [str(int)] prints it. *)
Definition decimal (n : Z) : string := NilZero.string_of_int (Z.to_int n).

End PyText.

(* ===================================================================== *)
(** ** Floats *)
(* ===================================================================== *)

Module PyFloat.
Import PyText.

Definition prec : Z := 53.
Definition emax : Z := 1024.

Definition float := spec_float.

Definition eqb (x y : float) : bool :=
  match x, y with
  | S754_zero a, S754_zero b => Bool.eqb a b
  | S754_infinity a, S754_infinity b => Bool.eqb a b
  | S754_nan, S754_nan => true
  | S754_finite a m e, S754_finite b n f =>
      Bool.eqb a b && Pos.eqb m n && Z.eqb e f
  | _, _ => false
  end.

(** The binary64 value nearest to [(-1)^neg * d * 10^e] (ties to even,
    overflow to infinity), for [0 <= d]: what [_Py_dg_strtod] returns
    for the digits [d] and the decimal exponent [e]. *)
Definition round_decimal (neg : bool) (d e : Z) : float :=
  if d =? 0 then S754_zero neg
  else if 0 <=? e
  then binary_normalize prec emax (cond_Zopp neg (d * 10 ^ e)) 0 neg
  else let '(q, e', l) := SFdiv_core_binary prec emax d 0 (10 ^ (- e)) 0 in
       binary_round_aux prec emax neg q e' l.

(** The decimal grammar of [_Py_dg_strtod], matched against the whole
    input: [[sign] (digits ["." [digits]] | "." digits) [("e"|"E") [sign] digits]].
    Returns the sign, the digits as an integer and the decimal exponent. *)
Definition parse_decimal (l : list ascii) : option (bool * Z * Z) :=
  let '(neg, l1) := take_sign l in
  let ip := take_while is_digit l1 in
  let l2 := drop_while is_digit l1 in
  let '(fp, l3) :=
    match l2 with
    | c :: t => if Ascii.eqb c "."
                then (take_while is_digit t, drop_while is_digit t)
                else ([], l2)
    | [] => ([], l2)
    end in
  match (ip ++ fp)%list with
  | [] => None
  | _ :: _ =>
      let d := digits_value (ip ++ fp) in
      let scale := - Z.of_nat (length fp) in
      match l3 with
      | [] => Some (neg, d, scale)
      | c :: t =>
          if Ascii.eqb (to_lower c) "e"
          then let '(eneg, t1) := take_sign t in
               match take_while is_digit t1, drop_while is_digit t1 with
               | (_ :: _) as ed, [] =>
                   Some (neg, d, cond_Zopp eneg (digits_value ed) + scale)
               | _, _ => None
               end
          else None
      end
  end.

(** [_Py_parse_inf_or_nan], matched against the whole input. *)
Definition parse_inf_or_nan (l : list ascii) : option float :=
  let '(neg, l1) := take_sign l in
  let w := text (map to_lower l1) in
  if String.eqb w "inf" || String.eqb w "infinity"
  then Some (S754_infinity neg)
  else if String.eqb w "nan" then Some S754_nan
  else None.

(** [float(s)] for a string [s]; [None] stands for [ValueError]. *)
Definition of_string (s : string) : option float :=
  let l := strip (chars s) in
  if underscores_ok None l then
    let l' := remove_underscores l in
    match parse_decimal l' with
    | Some (neg, d, e) => Some (round_decimal neg d e)
    | None => parse_inf_or_nan l'
    end
  else None.

(** [float(n)] for an integer [n]; [None] stands for [OverflowError]. *)
Definition of_int (n : Z) : option float :=
  match binary_normalize prec emax n 0 false with
  | S754_infinity _ => None
  | x => Some x
  end.

(** *** [repr] *)

(** Number of decimal digits of a positive integer. *)
Definition ndigits (p : positive) : Z :=
  Z.of_nat (Decimal.nb_digits (Pos.to_uint p)).

(** [m * 2^e] as a fraction [num / den]. *)
Definition fraction (m : positive) (e : Z) : Z * Z :=
  if 0 <=? e then (Z.pos m * 2 ^ e, 1) else (Z.pos m, 2 ^ (- e)).

(** [num / den * 10^k] as a fraction. *)
Definition scale10 (num den k : Z) : Z * Z :=
  if 0 <=? k then (num * 10 ^ k, den) else (num, den * 10 ^ (- k)).

(** The position of the decimal point: the [p] with
    [10^(p-1) <= num/den < 10^p]. *)
Definition decimal_point (num den : Z) : Z :=
  let p0 := ndigits (Z.to_pos num) - ndigits (Z.to_pos den) in
  let '(a, b) := scale10 num den (- p0) in
  if b <=? a then p0 + 1 else p0.

(** The shortest digit string that reads back as [m * 2^e], the way
    [_Py_dg_dtoa] in mode 0 finds it: for [n = 1, 2, ...] significant
    digits, the two [n]-digit decimals around the value are tried; of
    those that round back to the value the nearer one is taken.
    Returns the digits as an integer [c] and the exponent [k] with
    value [c * 10^k]. *)
Fixpoint shortest (fuel : nat) (n : Z) (m : positive) (e p : Z) : Z * Z :=
  let '(num, den) := fraction m e in
  let k := p - n in
  let '(a, b) := scale10 num den (- k) in
  let q := a / b in
  let r := a mod b in
  let back c := eqb (round_decimal false c k) (S754_finite false m e) in
  let lo := back q in
  let hi := negb (r =? 0) && back (q + 1) in
  let nearest :=
    match 2 * r ?= b with
    | Lt => q
    | Gt => q + 1
    | Eq => if Z.even q then q else q + 1
    end in
  match fuel with
  | O => (nearest, k)
  | S fuel' =>
      if lo && hi then (nearest, k)
      else if lo then (q, k)
      else if hi then (q + 1, k)
      else shortest fuel' (n + 1) m e p
  end.

(** Digits and decimal point of a finite non-zero value, in the form
    [_Py_dg_dtoa] returns them: the value is [0.d1d2...dn * 10^decpt]. *)
Definition dtoa (m : positive) (e : Z) : string * Z :=
  let '(num, den) := fraction m e in
  let p := decimal_point num den in
  let '(c, k) := shortest 16 1 m e p in
  let ds := decimal c in
  (* a candidate 10^n carries into one more digit *)
  let ds' := text (rev (drop_while (Ascii.eqb "0") (rev (chars ds)))) in
  (ds', k + Z.of_nat (String.length ds)).

Definition zeros (n : Z) : string := text (repeat "0"%char (Z.to_nat n)).

Definition head (n : Z) (s : string) : string := substring 0 (Z.to_nat n) s.
Definition tail (n : Z) (s : string) : string :=
  substring (Z.to_nat n) (String.length s - Z.to_nat n) s.

(** [format_float_short] for the code 'r' with [Py_DTSF_ADD_DOT_0]:
    exponent notation when [decpt <= -4] or [decpt > 16]. *)
Definition layout (ds : string) (decpt : Z) : string :=
  let n := Z.of_nat (String.length ds) in
  if (decpt <=? -4) || (16 <? decpt) then
    let x := decpt - 1 in
    head 1 ds ++ (if 1 <? n then "." ++ tail 1 ds else "")
    ++ "e" ++ (if x <? 0 then "-" else "+")
    ++ (if Z.abs x <? 10 then "0" else "") ++ decimal (Z.abs x)
  else if decpt <=? 0 then "0." ++ zeros (- decpt) ++ ds
  else if decpt <? n then head decpt ds ++ "." ++ tail decpt ds
  else ds ++ zeros (decpt - n) ++ ".0".

(** [repr(x)], which is also [str(x)] and [format(x, '')]. *)
Definition repr (x : float) : string :=
  match x with
  | S754_nan => "nan"
  | S754_infinity s => if s then "-inf" else "inf"
  | S754_zero s => if s then "-0.0" else "0.0"
  | S754_finite s m e =>
      let '(ds, decpt) := dtoa m e in
      (if s then "-" else "") ++ layout ds decpt
  end.

End PyFloat.

(* ===================================================================== *)
(** ** Integers *)
(* ===================================================================== *)

Module PyInt.
Import PyText.

(** [sys.int_info.default_max_str_digits]: conversions between [int] and
    [str] involving more decimal digits raise [ValueError]. *)
Definition max_str_digits : Z := 4300.

(** [int(s)] in base 10 ([PyLong_FromString]): white space at both ends,
    an optional sign, then digits with single underscores between them.
    [None] stands for [ValueError]. *)
Definition of_string (s : string) : option Z :=
  let '(neg, l) := take_sign (strip (chars s)) in
  let ds := remove_underscores l in
  match ds with
  | [] => None
  | _ :: _ =>
      if forallb is_digit ds && underscores_ok None l
         && (Z.of_nat (length ds) <=? max_str_digits)
      then Some (cond_Zopp neg (digits_value ds))
      else None
  end.

(** [str(n)]; [None] stands for [ValueError], raised when [n] has more
    than [max_str_digits] digits. *)
Definition to_string (n : Z) : option string :=
  if Z.abs n <? 10 ^ max_str_digits then Some (decimal n) else None.

End PyInt.

(* ===================================================================== *)
(** ** Objects and exceptions *)
(* ===================================================================== *)

Module PyObj.
Import PyText.

(** The values the script handles.  [PyEmptyList] is the only list it can
    meet: what argparse stores for an option written [--opt=--]. *)
Inductive pyval :=
| PyNone
| PyBool (b : bool)
| PyInt (n : Z)
| PyFloat (x : PyFloat.float)
| PyStr (s : string)
| PyEmptyList.

Inductive exn :=
| ValueError
| TypeError
| OverflowError
| AttributeError
| SystemExit (code : Z)
| LibraryError (what : string).

Inductive result (A : Type) :=
| Ok (a : A)
| Raise (e : exn).
Arguments Ok {A} a.
Arguments Raise {A} e.

Definition rbind {A B} (r : result A) (k : A -> result B) : result B :=
  match r with
  | Ok a => k a
  | Raise e => Raise e
  end.

Definition or_raise {A} (e : exn) (o : option A) : result A :=
  match o with
  | Some a => Ok a
  | None => Raise e
  end.

(** [str(v)], which for these values is also [format(v, '')], the
    conversion an f-string field [{v}] applies. *)
Definition py_str (v : pyval) : result string :=
  match v with
  | PyNone => Ok "None"
  | PyBool b => Ok (if b then "True" else "False")
  | PyInt n => or_raise ValueError (PyInt.to_string n)
  | PyFloat x => Ok (PyFloat.repr x)
  | PyStr s => Ok s
  | PyEmptyList => Ok "[]"
  end.

(** [float(v)] *)
Definition py_float (v : pyval) : result PyFloat.float :=
  match v with
  | PyStr s => or_raise ValueError (PyFloat.of_string s)
  | PyFloat x => Ok x
  | PyInt n => or_raise OverflowError (PyFloat.of_int n)
  | PyBool b => or_raise OverflowError (PyFloat.of_int (if b then 1 else 0))
  | PyNone | PyEmptyList => Raise TypeError
  end.

(** [c in v] for a one-character string [c] *)
Definition py_contains (c : ascii) (v : pyval) : result bool :=
  match v with
  | PyStr s => Ok (contains_char c s)
  | PyEmptyList => Ok false
  | PyNone | PyBool _ | PyInt _ | PyFloat _ => Raise TypeError
  end.

End PyObj.

(* ===================================================================== *)
(** ** argparse *)
(* ===================================================================== *)

(** [ArgumentParser.parse_args] as CPython 3.11's argparse.py runs it, for
    parsers made of optional arguments with the default action [store]
    (one value each) and of the automatic [-h/--help]; prefix characters
    ["-"], abbreviations allowed.  The texts of the help and usage
    messages are left out: the help action ends in [SystemExit 0], every
    parsing error in [SystemExit 2]. *)
Module Argparse.
Import PyText PyObj.

Notation "x <- r ; k" := (rbind r (fun x => k))
  (at level 100, r at next level, right associativity, only parsing).

(** The [type=] converters the script uses. *)
Inductive type_func := type_int | type_str | type_float.

Definition call_type (t : type_func) (s : string) : result pyval :=
  match t with
  | type_int => or_raise ValueError (option_map PyInt (PyInt.of_string s))
  | type_str => Ok (PyStr s)
  | type_float => or_raise ValueError (option_map PyFloat (PyFloat.of_string s))
  end.

Inductive action_kind :=
| Store (type : type_func) (default : pyval)
| Help.

Record action := {
  option_strings : list string;
  dest : string;
  kind : action_kind
}.

(** [parser._actions], in the order of the [add_argument] calls. *)
Definition parser := list action.

Abbreviation namespace := (gmap string pyval).

(** [parser._option_string_actions] *)
Definition option_string_actions (p : parser) : list (string * action) :=
  flat_map (fun a => map (fun o => (o, a)) (option_strings a)) p.

Definition find_option (p : parser) (s : string) : option action :=
  option_map snd
    (find (fun oa => String.eqb (fst oa) s) (option_string_actions p)).

(** What [_parse_optional] returns for an option: the action if the
    parser has one, the option string, the value written after ["="]. *)
Record option_tuple := {
  ot_action : option action;
  ot_string : string;
  ot_explicit : option string
}.

(** [s.split('=', 1)] when [s] has an ["="] *)
Fixpoint split_eq (s : string) : option (string * string) :=
  match s with
  | EmptyString => None
  | String c t =>
      if Ascii.eqb c "=" then Some (EmptyString, t)
      else match split_eq t with
           | Some (a, b) => Some (String c a, b)
           | None => None
           end
  end.

(** [_negative_number_matcher]: ['^-\d+$|^-\d*\.\d+$'], where [$] also
    matches before a final newline. *)
Definition looks_negative_number (s : string) : bool :=
  let l := match rev (chars s) with
           | c :: t => if Ascii.eqb c "010" then rev t else chars s
           | [] => []
           end in
  match l with
  | c :: t =>
      Ascii.eqb c "-" &&
      match take_while is_digit t, drop_while is_digit t with
      | _ :: _, [] => true
      | _, d :: f =>
          Ascii.eqb d "." && negb (Nat.eqb (length f) 0) && forallb is_digit f
      | [], [] => false
      end
  | [] => false
  end.

(** [parser._has_negative_number_optionals] *)
Definition has_negative_number_optionals (p : parser) : bool :=
  existsb (fun oa => looks_negative_number (fst oa)) (option_string_actions p).

Definition is_dash (c : ascii) : bool := Ascii.eqb c "-".

(** [_get_option_tuples] *)
Definition get_option_tuples (p : parser) (s : string)
  : result (list option_tuple) :=
  match s with
  | String c0 (String c1 rest) =>
      if is_dash c0 && is_dash c1 then
        let '(option_prefix, explicit_arg) :=
          match split_eq s with
          | Some (a, b) => (a, Some b)
          | None => (s, None)
          end in
        Ok (flat_map
              (fun oa => if String.prefix option_prefix (fst oa)
                         then [Build_option_tuple (Some (snd oa)) (fst oa) explicit_arg]
                         else [])
              (option_string_actions p))
      else if is_dash c0 then
        let short_option_prefix := String c0 (String c1 EmptyString) in
        Ok (flat_map
              (fun oa => if String.eqb (fst oa) short_option_prefix
                         then [Build_option_tuple (Some (snd oa)) (fst oa) (Some rest)]
                         else if String.prefix s (fst oa)
                         then [Build_option_tuple (Some (snd oa)) (fst oa) None]
                         else [])
              (option_string_actions p))
      else Raise (SystemExit 2)
  | _ => Raise (SystemExit 2)
  end.

(** The option string before the first ["="], if the parser has it. *)
Definition split_option (p : parser) (s : string) : option option_tuple :=
  match split_eq s with
  | Some (o, e) =>
      option_map (fun a => Build_option_tuple (Some a) o (Some e))
                 (find_option p o)
  | None => None
  end.

(** [_parse_optional]: [None] for a string that is an argument. *)
Definition parse_optional (p : parser) (s : string)
  : result (option option_tuple) :=
  match s with
  | EmptyString => Ok None
  | String c t =>
      if negb (is_dash c) then Ok None
      else
        match find_option p s with
        | Some a => Ok (Some (Build_option_tuple (Some a) s None))
        | None =>
            if String.eqb t EmptyString then Ok None
            else
              match split_option p s with
              | Some tup => Ok (Some tup)
              | None =>
                  tuples <- get_option_tuples p s;
                  match tuples with
                  | _ :: _ :: _ => Raise (SystemExit 2)
                  | [tup] => Ok (Some tup)
                  | [] =>
                      if looks_negative_number s
                         && negb (has_negative_number_optionals p)
                      then Ok None
                      else if contains_char " " s then Ok None
                      else Ok (Some (Build_option_tuple None s None))
                  end
              end
        end
  end.

(** One letter of [arg_strings_pattern], with the option found. *)
Inductive arg_class :=
| Argument                       (* 'A' *)
| DashDash                       (* '-' *)
| Option_ (tup : option_tuple).  (* 'O' *)

(** The first loop of [_parse_known_args]: every string after the first
    ["--"] is an argument. *)
Fixpoint classify (p : parser) (after_dashes : bool) (argv : list string)
  : result (list (string * arg_class)) :=
  match argv with
  | [] => Ok []
  | s :: rest =>
      if after_dashes then
        items <- classify p true rest; Ok ((s, Argument) :: items)
      else if String.eqb s "--" then
        items <- classify p true rest; Ok ((s, DashDash) :: items)
      else
        o <- parse_optional p s;
        items <- classify p false rest;
        Ok ((s, match o with Some tup => Option_ tup | None => Argument end)
              :: items)
  end.

(** [_get_values] for [nargs=None]: the first ["--"] is removed from the
    argument strings, and the single string left is converted;
    an option written [--opt=--] is left with no string and gets the
    empty list.  A failing conversion is an [ArgumentError]. *)
Definition get_values (t : type_func) (arg_string : string) : result pyval :=
  if String.eqb arg_string "--" then Ok PyEmptyList
  else match call_type t arg_string with
       | Ok v => Ok v
       | Raise _ => Raise (SystemExit 2)
       end.

(** [take_action] *)
Definition take_action (a : action) (args : list string) (ns : namespace)
  : result namespace :=
  match kind a, args with
  | Store t _, [s] => v <- get_values t s; Ok (<[dest a := v]> ns)
  | Store _ _, _ => Raise (SystemExit 2)
  | Help, _ => Raise (SystemExit 0)
  end.

(** The loop of [consume_optional] for an option with an explicit
    argument.  An action taking one value takes the explicit argument.  A
    single-dash flag taking no value passes the rest of the string on to
    the next single-letter flag; when nothing is left, that last flag is
    returned as [pending], to be matched against the following strings.
    Returns the [action_tuples] so far and the pending action. *)
Fixpoint explicit_tuples (p : parser) (a : action)
    (option_string explicit_arg : string) {struct explicit_arg}
  : result (list (action * list string) * option action) :=
  match kind a with
  | Store _ _ => Ok ([(a, [explicit_arg])], None)
  | Help =>
      match option_string, explicit_arg with
      | String c0 (String c1 _), String e0 e_rest =>
          if negb (is_dash c1) then
            let option_string' := String c0 (String e0 EmptyString) in
            match find_option p option_string' with
            | Some a' =>
                match e_rest with
                | EmptyString => Ok ([(a, [])], Some a')
                | String _ _ =>
                    r <- explicit_tuples p a' option_string' e_rest;
                    Ok ((a, []) :: fst r, snd r)
                end
            | None => Raise (SystemExit 2)
            end
          else Raise (SystemExit 2)
      | _, _ => Raise (SystemExit 2)
      end
  end.

Fixpoint take_actions (tuples : list (action * list string)) (ns : namespace)
  : result namespace :=
  match tuples with
  | [] => Ok ns
  | (a, args) :: rest => ns' <- take_action a args ns; take_actions rest ns'
  end.

(** The main loop of [_parse_known_args] with [consume_optional]: the
    parser has no positional argument, so every string that no option
    takes goes to [extras].  An action without explicit argument takes
    the next string if it is an argument ([Store]) or nothing ([Help]).
    The actions of one option string are taken once all of them are
    matched.  [seen] collects the [dest] of the actions taken. *)
Fixpoint consume (p : parser) (items : list (string * arg_class))
    (ns : namespace) (seen extras : list string)
  : result (namespace * list string * list string) :=
  match items with
  | [] => Ok (ns, seen, extras)
  | (s, Argument) :: rest | (s, DashDash) :: rest =>
      consume p rest ns seen (extras ++ [s])
  | (s, Option_ tup) :: rest =>
      match ot_action tup with
      | None => consume p rest ns seen (extras ++ [s])
      | Some a =>
          r <- match ot_explicit tup with
               | Some e => explicit_tuples p a (ot_string tup) e
               | None => Ok ([], Some a)
               end;
          let tuples := fst r in
          match snd r with
          | None =>
              ns' <- take_actions tuples ns;
              consume p rest ns' (seen ++ map (fun t => dest (fst t)) tuples) extras
          | Some a' =>
              match kind a' with
              | Help =>
                  ns' <- take_actions (tuples ++ [(a', [])]) ns;
                  consume p rest ns' (seen ++ map (fun t => dest (fst t)) tuples ++ [dest a']) extras
              | Store _ _ =>
                  match rest with
                  | (v, Argument) :: rest' =>
                      ns' <- take_actions (tuples ++ [(a', [v])]) ns;
                      consume p rest' ns'
                        (seen ++ map (fun t => dest (fst t)) tuples ++ [dest a']) extras
                  | _ => Raise (SystemExit 2)
                  end
              end
          end
      end
  end.

(** The defaults put in the namespace before parsing. *)
Definition initial_namespace (p : parser) : namespace :=
  fold_left
    (fun ns a => match kind a with
                 | Store _ d => match ns !! dest a with
                                | None => <[dest a := d]> ns
                                | Some _ => ns
                                end
                 | Help => ns
                 end)
    p ∅.

(** After parsing, the default of an action that was not taken is
    converted by the action's [type] if it is a string. *)
Fixpoint convert_defaults (p : parser) (seen : list string) (ns : namespace)
  : result namespace :=
  match p with
  | [] => Ok ns
  | a :: rest =>
      match kind a with
      | Store t (PyStr d) =>
          if existsb (String.eqb (dest a)) seen then convert_defaults rest seen ns
          else match call_type t d with
               | Ok v => convert_defaults rest seen (<[dest a := v]> ns)
               | Raise _ => Raise (SystemExit 2)
               end
      | _ => convert_defaults rest seen ns
      end
  end.

(** [parser.parse_args(argv)] *)
Definition parse_args (p : parser) (argv : list string) : result namespace :=
  items <- classify p false argv;
  r <- consume p items (initial_namespace p) [] [];
  let '(ns, seen, extras) := r in
  ns' <- convert_defaults p seen ns;
  match extras with
  | [] => Ok ns'
  | _ :: _ => Raise (SystemExit 2)
  end.

(** [ArgumentParser()] adds the help action; [add_argument] appends. *)
Definition ArgumentParser : parser :=
  [ {| option_strings := ["-h"; "--help"]; dest := "help"; kind := Help |} ].

(** The [dest] of a long option: prefix characters stripped, inner
    dashes turned into underscores. *)
Definition dest_of (option_string : string) : string :=
  text (map (fun c => if is_dash c then "_"%char else c)
            (drop_while is_dash (chars option_string))).

Definition add_argument (p : parser) (option_string : string)
    (type : type_func) (default : pyval) : parser :=
  (p ++ [ {| option_strings := [option_string];
            dest := dest_of option_string;
            kind := Store type default |} ])%list.

(** [getattr(ns, name)] *)
Definition getattr (ns : namespace) (name : string) : result pyval :=
  or_raise AttributeError (ns !! name).

End Argparse.

(* ===================================================================== *)
(** ** The launcher *)
(* ===================================================================== *)

Module Launcher.
Import PyText PyObj Argparse.

(** The float literals [0.3] and [0.5] of the script. *)
Definition float_0_3 : PyFloat.float := S754_finite false 5404319552844595 (-54).
Definition float_0_5 : PyFloat.float := S754_finite false 4503599627370496 (-53).

Definition VAD_ENV : string := "WHISPER_LIVE_VAD_THRESHOLD".

(** The function [VoiceActivityDetector.__init__] is bound to. *)
Inductive init_impl :=
| library_init    (* the constructor whisper_live.vad defines *)
| patched.        (* [patched_init] *)

(** What the script does to the outside, in order. *)
Inductive event :=
| PrintLine (line : string)
    (* print(line, flush=True) *)
| OriginalInit (threshold frame_rate : pyval)
    (* original_init(self, threshold=..., frame_rate=...) *)
| NewTranscriptionServer
    (* TranscriptionServer() *)
| ServerRun (host port backend faster_whisper_custom_model_path single_model : pyval).
    (* server.run(host, port=..., backend=..., ...) *)

(** The process state the script reads and writes: [os.environ], the
    [__init__] attribute of the detector class, and the calls made. *)
Record world := {
  environ : gmap string string;
  vad_init : init_impl;
  trace : list event
}.

(** The whisper_live package, which is not part of this repository: the
    defaults of the detector's own constructor, and whether each of its
    entry points returns ([None]) or raises. *)
Record library := {
  init_default_threshold : pyval;
  init_default_frame_rate : pyval;
  original_init_raises : pyval -> pyval -> option exn;
  transcription_server_raises : option exn;
  run_raises : pyval -> pyval -> pyval -> pyval -> pyval -> option exn
}.

(** Computations on the world that may raise. *)
Definition M (A : Type) : Type := world -> result A * world.

Definition ret {A} (a : A) : M A := fun w => (Ok a, w).

Definition bind {A B} (m : M A) (k : A -> M B) : M B :=
  fun w => match m w with
           | (Ok a, w') => k a w'
           | (Raise e, w') => (Raise e, w')
           end.

Definition lift {A} (r : result A) : M A := fun w => (r, w).

Notation "x <- m ;; k" := (bind m (fun x => k))
  (at level 100, m at next level, right associativity, only parsing).
Notation "m ;;; k" := (bind m (fun _ => k))
  (at level 100, right associativity, only parsing).

Definition emit (e : event) : M unit :=
  fun w => (Ok tt, {| environ := environ w; vad_init := vad_init w;
                      trace := trace w ++ [e] |}).

(** A call into the library: recorded, then it returns or raises.  The
    trace holds the steps of the function it is threaded through; what
    the library does inside the call is its own (the server, while it
    runs, builds detectors through whatever [__init__] is bound to:
    [patched_init] is the entry point it then calls), and it leaves
    [os.environ] and the detector class as they are. *)
Definition external (e : event) (outcome : option exn) : M unit :=
  emit e ;;; lift (match outcome with None => Ok tt | Some x => Raise x end).

Definition print (line : string) : M unit := emit (PrintLine line).

(** [os.environ.get(key, default)] *)
Definition environ_get (key : string) (default : pyval) : M pyval :=
  fun w => (Ok (match environ w !! key with
                | Some s => PyStr s
                | None => default
                end), w).

(** [os.environ[key] = value] *)
Definition environ_set (key value : string) : M unit :=
  fun w => (Ok tt, {| environ := <[key := value]> (environ w);
                      vad_init := vad_init w; trace := trace w |}).

(** [float(os.environ.get('WHISPER_LIVE_VAD_THRESHOLD', 0.3))] *)
Definition configured_threshold (w : world) : result PyFloat.float :=
  py_float (match environ w !! VAD_ENV with
            | Some s => PyStr s
            | None => PyFloat float_0_3
            end).

(** The calls of the library's constructor recorded in a trace, as pairs
    (threshold, frame rate). *)
Definition delegations (t : list event) : list (pyval * pyval) :=
  flat_map (fun e => match e with
                     | OriginalInit th fr => [(th, fr)]
                     | _ => []
                     end) t.

(** The calls of [server.run] recorded in a trace. *)
Definition runs (t : list event) : list event :=
  List.filter (fun e => match e with ServerRun _ _ _ _ _ => true | _ => false end) t.

(** The custom model paths handed to [server.run]. *)
Definition custom_model_paths (t : list event) : list pyval :=
  flat_map (fun e => match e with
                     | ServerRun _ _ _ path _ => [path]
                     | _ => []
                     end) t.

(** The lines printed. *)
Definition printed (t : list event) : list string :=
  flat_map (fun e => match e with PrintLine l => [l] | _ => [] end) t.

Section Script.
Variable lib : library.

(** [original_init = VoiceActivityDetector.__init__], read when the
    module is loaded: the library's constructor. *)
Definition original_init (threshold frame_rate : pyval) : M unit :=
  external (OriginalInit threshold frame_rate)
           (original_init_raises lib threshold frame_rate).

(** [def patched_init(self, threshold=0.5, frame_rate=16000)], with both
    arguments given. *)
Definition patched_init (threshold frame_rate : pyval) : M unit :=
  v <- environ_get VAD_ENV (PyFloat float_0_3) ;;
  vad_threshold <- lift (py_float v) ;;
  original_init (PyFloat vad_threshold) frame_rate ;;;
  s <- lift (py_str (PyFloat vad_threshold)) ;;
  print ("[WhisperLive] Using VAD threshold: " +:+ s).

(** [VoiceActivityDetector.__init__ = patched_init] *)
Definition install_patch : M unit :=
  fun w => (Ok tt, {| environ := environ w; vad_init := patched;
                      trace := trace w |}).

(** [VoiceActivityDetector(...)]: the call goes to whatever [__init__]
    is bound to, and an argument left out takes the default of that
    function's own signature. *)
Definition VoiceActivityDetector (threshold frame_rate : option pyval) : M unit :=
  fun w =>
    match vad_init w with
    | library_init =>
        original_init (default (init_default_threshold lib) threshold)
                      (default (init_default_frame_rate lib) frame_rate) w
    | patched =>
        patched_init (default (PyFloat float_0_5) threshold)
                     (default (PyInt 16000) frame_rate) w
    end.

(** The parser [main] builds. *)
Definition parser : Argparse.parser :=
  let parser := ArgumentParser in
  let parser := add_argument parser "--port" type_int (PyInt 9090) in
  let parser := add_argument parser "--model" type_str (PyStr "small.en") in
  add_argument parser "--vad_threshold" type_float (PyFloat float_0_3).

(** The line [main] prints before it starts the server. *)
Definition diagnostic (args : namespace) : result string :=
  port <- getattr args "port";
  port_s <- py_str port;
  model <- getattr args "model";
  model_s <- py_str model;
  vad_threshold <- getattr args "vad_threshold";
  vad_threshold_s <- py_str vad_threshold;
  Ok ("[WhisperLive] Starting server on port " +:+ port_s
      +:+ " with model=" +:+ model_s
      +:+ ", vad_threshold=" +:+ vad_threshold_s).

(** [args.model if "/" in args.model else None] *)
Definition model_path (args : namespace) : result pyval :=
  model <- getattr args "model";
  has_separator <- py_contains "/" model;
  if has_separator then getattr args "model" else Ok PyNone.

(** [main], from the parsed arguments on. *)
Definition launch (args : namespace) : M unit :=
  vad_threshold <- lift (getattr args "vad_threshold") ;;
  s <- lift (py_str vad_threshold) ;;
  environ_set VAD_ENV s ;;;
  external NewTranscriptionServer (transcription_server_raises lib) ;;;
  model_path <- lift (model_path args) ;;
  line <- lift (diagnostic args) ;;
  print line ;;;
  port <- lift (getattr args "port") ;;
  external
    (ServerRun (PyStr "0.0.0.0") port (PyStr "faster_whisper") model_path
               (PyBool true))
    (run_raises lib (PyStr "0.0.0.0") port (PyStr "faster_whisper")
                model_path (PyBool true)).

(** [def main()], for the command line [argv = sys.argv[1:]]. *)
Definition main (argv : list string) : M unit :=
  args <- lift (parse_args parser argv) ;;
  launch args.

(** The script run as a program: the module body, then [main()]. *)
Definition script (argv : list string) : M unit :=
  install_patch ;;; main argv.

End Script.

(** A library whose entry points all return, with the defaults of
    whisper_live's detector, [threshold=0.5] and [frame_rate=16000]. *)
Definition quiet_library : library :=
  {| init_default_threshold := PyFloat float_0_5;
     init_default_frame_rate := PyInt 16000;
     original_init_raises := fun _ _ => None;
     transcription_server_raises := None;
     run_raises := fun _ _ _ _ _ => None |}.

(** A process with the given environment and the unpatched detector. *)
Definition fresh (env : gmap string string) : world :=
  {| environ := env; vad_init := library_init; trace := [] |}.

(** The world once [main] has mirrored the threshold text [s] and called
    [TranscriptionServer()]. *)
Definition after_setenv (w : world) (s : string) : world :=
  {| environ := <[VAD_ENV := s]> (environ w); vad_init := vad_init w;
     trace := trace w ++ [NewTranscriptionServer] |}.

(** The world once [main] has also printed [line] and called
    [server.run]. *)
Definition after_run (w : world) (s line : string) (port path : pyval) : world :=
  {| environ := <[VAD_ENV := s]> (environ w); vad_init := vad_init w;
     trace := ((trace w ++ [NewTranscriptionServer]) ++ [PrintLine line])
              ++ [ServerRun (PyStr "0.0.0.0") port (PyStr "faster_whisper")
                            path (PyBool true)] |}.

(** The two ways of writing the threshold [s] on a command line that has
    no other flag: [--vad_threshold=s], and [--vad_threshold s] when
    argparse reads [s] as an argument rather than as an option. *)
Definition threshold_given (s : string) (argv : list string) : Prop :=
  argv = ["--vad_threshold=" +:+ s] \/
  (argv = ["--vad_threshold"; s] /\ parse_optional parser s = Ok None).

(** What an option of the given [type=] can leave in the namespace: a
    converted value, or the empty list (see [get_values]). *)
Definition converted (t : type_func) (v : pyval) : Prop :=
  v = PyEmptyList \/
  match t with
  | type_int => exists n, v = PyInt n /\ Z.abs n < 10 ^ PyInt.max_str_digits
  | type_str => exists s, v = PyStr s
  | type_float => exists x, v = PyFloat x
  end.

(** The shape of every namespace [parser] produces. *)
Definition valid_args (args : namespace) : Prop :=
  (exists v, args !! "port" = Some v /\ converted type_int v) /\
  (exists v, args !! "model" = Some v /\ converted type_str v) /\
  (exists v, args !! "vad_threshold" = Some v /\ converted type_float v).

(** The strings of a classified command line that are options of [p]
    carry actions of [p]. *)
Definition item_in (p : Argparse.parser) (item : string * arg_class) : Prop :=
  forall tup a, snd item = Option_ tup -> ot_action tup = Some a -> In a p.

End Launcher.

(* ===================================================================== *)
(** ** The command line of the launcher *)
(* ===================================================================== *)

Module CommandLine.
Import PyText PyObj Argparse Launcher.

(** The three [add_argument] calls of [main]: the option string, the
    attribute it fills and its [type=]. *)
Definition declared_options : list (string * string * type_func) :=
  [ ("--port", "port", type_int);
    ("--model", "model", type_str);
    ("--vad_threshold", "vad_threshold", type_float) ].

(** The long option strings the parser knows, [--help] included. *)
Definition long_options : list string :=
  ["--help"; "--port"; "--model"; "--vad_threshold"].

(** The prefixes of a string, the shortest first. *)
Fixpoint prefixes (s : string) : list string :=
  match s with
  | EmptyString => [EmptyString]
  | String c t => EmptyString :: map (String c) (prefixes t)
  end.

(** A float that is a zero, an infinity or NaN. *)
Definition is_special (x : PyFloat.float) : bool :=
  match x with
  | S754_finite _ _ _ => false
  | _ => true
  end.


End CommandLine.

(* ===================================================================== *)
(** ** Properties of the launcher *)
(* ===================================================================== *)

Import PyText PyObj Argparse Launcher CommandLine.

(** *** The literals *)

(** The constants above are the values of the literals [0.3] and [0.5]. *)
Lemma float_literals :
  PyFloat.of_string "0.3" = Some float_0_3 /\
  PyFloat.of_string "0.5" = Some float_0_5 /\
  PyFloat.repr float_0_3 = "0.3" /\
  PyFloat.repr float_0_5 = "0.5".
Proof. repeat split; vm_compute; reflexivity. Qed.

(** *** Traces *)

Lemma delegations_app (t u : list event) :
  delegations (t ++ u) = (delegations t ++ delegations u)%list.
Proof. unfold delegations. apply flat_map_app. Qed.

Lemma printed_app (t u : list event) :
  printed (t ++ u) = (printed t ++ printed u)%list.
Proof. unfold printed. apply flat_map_app. Qed.

Lemma runs_app (t u : list event) :
  runs (t ++ u) = (runs t ++ runs u)%list.
Proof. unfold runs. apply List.filter_app. Qed.

(** *** The patched constructor *)

(** What [patched_init] does in full, by the outcome of the conversion of
    line 16 and of the library's constructor. *)
Lemma patched_init_unfold (lib : library) (w : world) (threshold frame_rate : pyval) :
  patched_init lib threshold frame_rate w =
  match configured_threshold w with
  | Raise e => (Raise e, w)
  | Ok x =>
      let called := {| environ := environ w; vad_init := vad_init w;
                       trace := trace w ++ [OriginalInit (PyFloat x) frame_rate] |} in
      match original_init_raises lib (PyFloat x) frame_rate with
      | Some e => (Raise e, called)
      | None =>
          (Ok tt,
           {| environ := environ w; vad_init := vad_init w;
              trace := (trace w ++ [OriginalInit (PyFloat x) frame_rate])
                       ++ [PrintLine ("[WhisperLive] Using VAD threshold: "
                                  +:+ PyFloat.repr x)] |})
      end
  end.
Proof.
  unfold patched_init, bind, environ_get, lift, configured_threshold.
  destruct (py_float _) as [x|e]; [|reflexivity].
  unfold original_init, external, bind, emit, lift, print, emit. cbn.
  destruct (original_init_raises lib (PyFloat x) frame_rate); reflexivity.
Qed.

(** The delegations [patched_init] adds to the trace. *)
Lemma patched_init_delegations (lib : library) (w : world) (threshold frame_rate : pyval) :
  delegations (trace (snd (patched_init lib threshold frame_rate w))) =
  (delegations (trace w) ++
   match configured_threshold w with
   | Ok x => [(PyFloat x, frame_rate)]
   | Raise _ => []
   end)%list.
Proof.
  rewrite patched_init_unfold.
  destruct (configured_threshold w) as [x|e]; cbn.
  - destruct (original_init_raises lib (PyFloat x) frame_rate); cbn;
      rewrite ?delegations_app; cbn; rewrite ?app_nil_r; reflexivity.
  - rewrite app_nil_r. reflexivity.
Qed.

(** C1. Once the patch is installed, a detector built without a threshold
    argument reaches the library's constructor with the float value of the
    string the environment variable holds at that moment, whatever that
    float is; so does every call of [patched_init], whatever threshold its
    caller supplies. *)
Theorem patched_constructor_uses_environment_threshold
    (lib : library) (w : world) (s : string) (x : PyFloat.float)
    (Henv : environ w !! VAD_ENV = Some s)
    (Hfloat : PyFloat.of_string s = Some x) :
  (forall threshold frame_rate,
     delegations (trace (snd (patched_init lib threshold frame_rate w))) =
     (delegations (trace w) ++ [(PyFloat x, frame_rate)])%list) /\
  (forall frame_rate,
     delegations
       (trace (snd (VoiceActivityDetector lib None frame_rate
                      (snd (install_patch w))))) =
     (delegations (trace w) ++
      [(PyFloat x, default (PyInt 16000) frame_rate)])%list).
Proof.
  split.
  - intros threshold frame_rate.
    rewrite patched_init_delegations. unfold configured_threshold.
    rewrite Henv. cbn. rewrite Hfloat. reflexivity.
  - intros frame_rate. unfold VoiceActivityDetector. cbn [install_patch snd vad_init].
    rewrite patched_init_delegations. unfold configured_threshold. cbn [environ trace].
    rewrite Henv. cbn. rewrite Hfloat. reflexivity.
Qed.

Lemma patched_constructor_uses_environment_threshold_witness :
  delegations
    (trace (snd (VoiceActivityDetector quiet_library None None
                   (snd (install_patch (fresh {[ VAD_ENV := "0.15" ]})))))) =
  [(PyFloat (S754_finite false 5404319552844595 (-55)), PyInt 16000)].
Proof.
  exact (proj2 (patched_constructor_uses_environment_threshold
                  quiet_library (fresh {[ VAD_ENV := "0.15" ]}) "0.15"
                  (S754_finite false 5404319552844595 (-55))
                  eq_refl eq_refl) None).
Defined.

(** Before the patch the same call reaches the library's constructor with
    the default of the library's own signature. *)
Lemma unpatched_constructor_uses_library_default
    (lib : library) (env : gmap string string) (frame_rate : option pyval) :
  delegations (trace (snd (VoiceActivityDetector lib None frame_rate (fresh env)))) =
  [(init_default_threshold lib, default (init_default_frame_rate lib) frame_rate)].
Proof.
  unfold VoiceActivityDetector, original_init, external, bind, emit, lift. cbn.
  reflexivity.
Qed.

(** C7. With the environment variable unset, [patched_init] hands the
    fallback 0.3 to the library's constructor. *)
Theorem patched_init_falls_back_when_unset
    (lib : library) (w : world) (threshold frame_rate : pyval)
    (Hunset : environ w !! VAD_ENV = None) :
  delegations (trace (snd (patched_init lib threshold frame_rate w))) =
  (delegations (trace w) ++ [(PyFloat float_0_3, frame_rate)])%list.
Proof.
  rewrite patched_init_delegations. unfold configured_threshold.
  rewrite Hunset. reflexivity.
Qed.

Lemma patched_init_falls_back_when_unset_witness :
  delegations
    (trace (snd (patched_init quiet_library (PyFloat float_0_5) (PyInt 16000)
                   (fresh ∅)))) =
  [(PyFloat float_0_3, PyInt 16000)].
Proof.
  exact (patched_init_falls_back_when_unset quiet_library (fresh ∅)
           (PyFloat float_0_5) (PyInt 16000) eq_refl).
Defined.

(** C9. With the environment variable set to a string that [float()]
    rejects, [patched_init] raises [ValueError] before anything else
    happens: the library's constructor is not called, with 0.3 or any
    other threshold, and nothing is printed. *)
Theorem patched_init_raises_on_malformed_value
    (lib : library) (w : world) (threshold frame_rate : pyval) (s : string)
    (Henv : environ w !! VAD_ENV = Some s)
    (Hbad : PyFloat.of_string s = None) :
  patched_init lib threshold frame_rate w = (Raise ValueError, w).
Proof.
  rewrite patched_init_unfold. unfold configured_threshold.
  rewrite Henv. cbn. rewrite Hbad. reflexivity.
Qed.

Lemma patched_init_raises_on_malformed_value_witness :
  patched_init quiet_library (PyFloat float_0_5) (PyInt 16000)
    (fresh {[ VAD_ENV := "abc" ]}) =
  (Raise ValueError, fresh {[ VAD_ENV := "abc" ]}).
Proof.
  exact (patched_init_raises_on_malformed_value quiet_library
           (fresh {[ VAD_ENV := "abc" ]}) (PyFloat float_0_5) (PyInt 16000)
           "abc" eq_refl eq_refl).
Defined.

(** C10. [patched_init] replaces the threshold only: the threshold its
    caller supplies has no effect at all, every call it makes to the
    library's constructor carries the caller's frame rate as it came in,
    and it makes exactly one such call whenever the conversion of line 16
    yields a float. *)
Theorem patched_init_passes_frame_rate_through
    (lib : library) (w : world) (threshold frame_rate : pyval) :
  (forall threshold', patched_init lib threshold' frame_rate w =
                      patched_init lib threshold frame_rate w) /\
  exists new,
    delegations (trace (snd (patched_init lib threshold frame_rate w))) =
    (delegations (trace w) ++ new)%list /\
    Forall (fun call => snd call = frame_rate) new /\
    (forall x, configured_threshold w = Ok x -> new = [(PyFloat x, frame_rate)]).
Proof.
  split.
  - intros threshold'. rewrite !patched_init_unfold. reflexivity.
  - eexists. split; [apply patched_init_delegations|].
    destruct (configured_threshold w) as [x|e].
    + split; [repeat constructor|]. intros y [= <-]. reflexivity.
    + split; [constructor|]. intros y [=].
Qed.

(** *** The argument parser *)

Lemma rbind_ok {A B : Type} (r : result A) (k : A -> result B) (b : B) :
  rbind r k = Ok b -> exists a, r = Ok a /\ k a = Ok b.
Proof. destruct r as [a|e]; cbn; [eauto|discriminate]. Qed.

Lemma find_option_in (p : Argparse.parser) (s : string) (a : action) :
  find_option p s = Some a -> In a p.
Proof.
  unfold find_option. destruct (find _ _) as [[o a']|] eqn:Hfind; [|discriminate].
  intros [= <-]. apply find_some in Hfind as [Hin _].
  unfold option_string_actions in Hin.
  apply in_flat_map in Hin as (b & Hb & Hin).
  apply in_map_iff in Hin as (o' & [= _ <-] & _). exact Hb.
Qed.

Lemma option_table_in (p : Argparse.parser) (oa : string * action) :
  In oa (option_string_actions p) -> In (snd oa) p.
Proof.
  unfold option_string_actions. intros Hin.
  apply in_flat_map in Hin as (b & Hb & Hin).
  apply in_map_iff in Hin as (o' & <- & _). exact Hb.
Qed.

Lemma get_option_tuples_in (p : Argparse.parser) (s : string) tuples tup a :
  get_option_tuples p s = Ok tuples ->
  In tup tuples -> ot_action tup = Some a -> In a p.
Proof.
  unfold get_option_tuples.
  destruct s as [|c0 [|c1 rest]]; try discriminate.
  destruct (is_dash c0 && is_dash c1).
  - destruct (match split_eq _ with Some _ => _ | None => _ end) as [pre ex].
    intros [= <-] Hin Ha.
    apply in_flat_map in Hin as (oa & Hoa & Hin).
    destruct (String.prefix pre (fst oa)); [|contradiction].
    destruct Hin as [<-|[]]. cbn in Ha. injection Ha as <-.
    now apply option_table_in.
  - destruct (is_dash c0); [|discriminate].
    intros [= <-] Hin Ha.
    apply in_flat_map in Hin as (oa & Hoa & Hin).
    destruct (String.eqb (fst oa) _).
    + destruct Hin as [<-|[]]. cbn in Ha. injection Ha as <-.
      now apply option_table_in.
    + destruct (String.prefix _ (fst oa)); [|contradiction].
      destruct Hin as [<-|[]]. cbn in Ha. injection Ha as <-.
      now apply option_table_in.
Qed.

Lemma parse_optional_in (p : Argparse.parser) (s : string) tup a :
  parse_optional p s = Ok (Some tup) -> ot_action tup = Some a -> In a p.
Proof.
  unfold parse_optional. destruct s as [|c t]; [discriminate|].
  destruct (negb (is_dash c)); [discriminate|].
  destruct (find_option p (String c t)) as [a0|] eqn:Hfind.
  { intros [= <-] [= <-]. now apply find_option_in in Hfind. }
  destruct (String.eqb t EmptyString); [discriminate|].
  destruct (split_option p (String c t)) as [tup0|] eqn:Hsplit.
  - intros [= <-] Ha. unfold split_option in Hsplit.
    destruct (split_eq _) as [[o e]|]; [|discriminate].
    destruct (find_option p o) as [a0|] eqn:Hfo; [|discriminate].
    injection Hsplit as <-. injection Ha as <-.
    now apply find_option_in in Hfo.
  - intros H Ha. apply rbind_ok in H as (tuples & Htup & H).
    destruct tuples as [|t1 [|t2 tl]]; try discriminate.
    + destruct (_ && _); [discriminate|].
      destruct (contains_char _ _); [discriminate|].
      injection H as <-. discriminate.
    + injection H as <-. eapply get_option_tuples_in; eauto. now left.
Qed.

Lemma classify_in (p : Argparse.parser) (argv : list string) :
  forall after items,
    classify p after argv = Ok items -> Forall (item_in p) items.
Proof.
  induction argv as [|s rest IH]; intros after items H.
  - injection H as <-. constructor.
  - unfold classify in H; fold classify in H. destruct after.
    + apply rbind_ok in H as (items' & Hc & [= <-]).
      constructor; [|eauto]. intros tup a [=].
    + destruct (String.eqb s "--").
      * apply rbind_ok in H as (items' & Hc & [= <-]).
        constructor; [|eauto]. intros tup a [=].
      * apply rbind_ok in H as (o & Ho & H).
        apply rbind_ok in H as (items' & Hc & [= <-]).
        constructor; [|eauto].
        intros tup a. unfold snd. destruct o as [tup'|]; [|discriminate].
        intros [= <-]. now apply (parse_optional_in p s).
Qed.

Lemma explicit_tuples_in (p : Argparse.parser) (e : string) :
  forall a o tuples pending,
    In a p ->
    explicit_tuples p a o e = Ok (tuples, pending) ->
    Forall (fun t => In (fst t) p) tuples /\
    (forall a', pending = Some a' -> In a' p).
Proof.
  induction e as [|e0 e_rest IH]; intros a o tuples pending Ha H.
  - unfold explicit_tuples in H. destruct (kind a).
    + injection H as <- <-. split; [repeat constructor; exact Ha|discriminate].
    + destruct o as [|c0 [|c1 o']]; discriminate.
  - unfold explicit_tuples in H; fold explicit_tuples in H. destruct (kind a).
    + injection H as <- <-. split; [repeat constructor; exact Ha|discriminate].
    + destruct o as [|c0 [|c1 o']]; try discriminate.
      destruct (negb (is_dash c1)); [|discriminate].
      destruct (find_option p _) as [a'|] eqn:Hfind; [|discriminate].
      apply find_option_in in Hfind.
      destruct e_rest as [|e1 e_rest'].
      * injection H as <- <-. split; [repeat constructor; exact Ha|].
        intros a'' [= <-]. exact Hfind.
      * apply rbind_ok in H as ([tuples' pending'] & Hrec & [= <- <-]).
        destruct (IH _ _ _ _ Hfind Hrec) as [H1 H2].
        split; [constructor; [exact Ha|exact H1]|exact H2].
Qed.

Section Preservation.
Variable p : Argparse.parser.
Variable I : namespace -> Prop.
Hypothesis take_action_preserves :
  forall a args ns ns',
    In a p -> I ns -> take_action a args ns = Ok ns' -> I ns'.

Lemma take_actions_preserves tuples :
  forall ns ns',
    Forall (fun t => In (fst t) p) tuples ->
    I ns -> take_actions tuples ns = Ok ns' -> I ns'.
Proof.
  induction tuples as [|[a args] rest IH]; intros ns ns' Hall Hi H.
  - injection H as <-. exact Hi.
  - inversion Hall as [|? ? Ha Hrest]; subst.
    unfold take_actions in H; fold take_actions in H.
    apply rbind_ok in H as (ns1 & Ht & H).
    apply (IH ns1 ns' Hrest); [|exact H].
    eapply take_action_preserves; [exact Ha|exact Hi|exact Ht].
Qed.

Lemma consume_preserves (n : nat) :
  forall items ns seen extras ns' seen' extras',
    (length items <= n)%nat ->
    Forall (item_in p) items ->
    I ns ->
    consume p items ns seen extras = Ok (ns', seen', extras') ->
    I ns'.
Proof.
  induction n as [|n IH]; intros items ns seen extras ns' seen' extras' Hlen Hall Hi H.
  - destruct items; [|cbn in Hlen; lia]. injection H as <- _ _. exact Hi.
  - destruct items as [|[s c] rest].
    { injection H as <- _ _. exact Hi. }
    cbn [length] in Hlen. inversion Hall as [|? ? Hitem Hrest]; subst.
    assert (Hn : (length rest <= n)%nat) by lia.
    unfold consume in H; fold consume in H.
    destruct c as [| |tup]; try (eapply IH; eauto; fail).
    destruct (ot_action tup) as [a|] eqn:Hact; [|eapply IH; eauto].
    assert (Ha : In a p) by (eapply Hitem; eauto).
    apply rbind_ok in H as ([tuples pending] & Hex & H).
    assert (Htup : Forall (fun t => In (fst t) p) tuples /\
                   (forall a', pending = Some a' -> In a' p)).
    { destruct (ot_explicit tup) as [e|].
      - eapply explicit_tuples_in; eauto.
      - injection Hex as <- <-. split; [constructor|].
        intros a' [= <-]. exact Ha. }
    destruct Htup as [Htuples Hpending].
    unfold fst, snd in H.
    destruct pending as [a'|].
    + assert (Ha' : In a' p) by (apply Hpending; reflexivity).
      assert (Hall' : forall args, Forall (fun t => In (fst t) p)
                                     (tuples ++ [(a', args)])).
      { intros args. apply Forall_app.
        split; [exact Htuples|repeat constructor; exact Ha']. }
      destruct (kind a').
      * destruct rest as [|[v [| |tup']] rest']; try discriminate.
        apply rbind_ok in H as (ns1 & Ht & H).
        eapply (IH rest'); [cbn [length] in Hn; lia| | |exact H].
        -- now inversion Hrest.
        -- eapply take_actions_preserves; [apply Hall'|exact Hi|exact Ht].
      * apply rbind_ok in H as (ns1 & Ht & H).
        eapply (IH rest); [exact Hn|exact Hrest| |exact H].
        eapply take_actions_preserves; [apply Hall'|exact Hi|exact Ht].
    + apply rbind_ok in H as (ns1 & Ht & H).
      eapply (IH rest); [exact Hn|exact Hrest| |exact H].
      eapply take_actions_preserves; eauto.
Qed.

Lemma convert_defaults_preserves (q : Argparse.parser) :
  forall seen ns ns',
    (forall a t d v ns,
       In a q -> kind a = Store t (PyStr d) -> call_type t d = Ok v ->
       I ns -> I (<[dest a := v]> ns)) ->
    I ns -> convert_defaults q seen ns = Ok ns' -> I ns'.
Proof.
  induction q as [|a rest IH]; intros seen ns ns' Hq Hi H.
  - injection H as <-. exact Hi.
  - assert (Hrest : forall a t d v ns,
               In a rest -> kind a = Store t (PyStr d) -> call_type t d = Ok v ->
               I ns -> I (<[dest a := v]> ns)).
    { intros. eapply Hq; eauto. now right. }
    unfold convert_defaults in H; fold convert_defaults in H.
    destruct (kind a) as [t d|] eqn:Hk; [|eapply IH; eauto].
    destruct d; try (eapply IH; eauto; fail).
    destruct (existsb _ seen); [eapply IH; eauto|].
    destruct (call_type t s) as [v|] eqn:Hv; [|discriminate].
    eapply IH; [exact Hrest| |exact H]. eapply Hq; eauto. now left.
Qed.

End Preservation.

(** *** The values the converters produce *)

Lemma digits_value_bound (ds : list ascii) :
  forallb is_digit ds = true ->
  forall acc, 0 <= acc ->
    0 <= fold_left (fun a c => 10 * a + digit_value c) ds acc
      < (acc + 1) * 10 ^ Z.of_nat (length ds).
Proof.
  induction ds as [|c t IH]; intros Hall acc Hacc.
  - cbn. lia.
  - cbn [forallb] in Hall. apply andb_prop in Hall as [Hc Ht].
    assert (Hd : 0 <= digit_value c <= 9).
    { unfold is_digit in Hc. unfold digit_value.
      apply andb_prop in Hc as [H1 H2]. lia. }
    cbn [fold_left length]. rewrite Nat2Z.inj_succ, Z.pow_succ_r by lia.
    specialize (IH Ht (10 * acc + digit_value c) ltac:(lia)).
    assert (Hp : 0 < 10 ^ Z.of_nat (length t)) by (apply Z.pow_pos_nonneg; lia).
    nia.
Qed.

Lemma int_of_string_bound (s : string) (n : Z) :
  PyInt.of_string s = Some n -> Z.abs n < 10 ^ PyInt.max_str_digits.
Proof.
  unfold PyInt.of_string.
  destruct (take_sign (strip (chars s))) as [neg l].
  destruct (remove_underscores l) as [|d ds] eqn:Hds; [discriminate|].
  destruct (forallb is_digit (d :: ds) && underscores_ok None l
            && (Z.of_nat (length (d :: ds)) <=? PyInt.max_str_digits)) eqn:Hok;
    [|discriminate].
  intros [= <-].
  apply andb_prop in Hok as [Hok Hlen]. apply andb_prop in Hok as [Hdig _].
  apply Z.leb_le in Hlen.
  pose proof (digits_value_bound (d :: ds) Hdig 0 ltac:(lia)) as Hb.
  fold (digits_value (d :: ds)) in Hb.
  assert (Hpow : 10 ^ Z.of_nat (length (d :: ds)) <= 10 ^ PyInt.max_str_digits)
    by (apply Z.pow_le_mono_r; lia).
  destruct neg; cbn [cond_Zopp]; lia.
Qed.

Lemma call_type_converted (t : type_func) (s : string) (v : pyval) :
  call_type t s = Ok v -> converted t v.
Proof.
  destruct t; cbn.
  - destruct (PyInt.of_string s) as [n|] eqn:Hn; cbn; [|discriminate].
    intros [= <-]. right. exists n. split; [reflexivity|].
    now apply int_of_string_bound in Hn.
  - intros [= <-]. right. now exists s.
  - destruct (PyFloat.of_string s) as [x|]; cbn; [|discriminate].
    intros [= <-]. right. now exists x.
Qed.

Lemma get_values_converted (t : type_func) (s : string) (v : pyval) :
  get_values t s = Ok v -> converted t v.
Proof.
  unfold get_values. destruct (String.eqb s "--").
  - intros [= <-]. now left.
  - destruct (call_type t s) as [v'|] eqn:Hv; [|discriminate].
    intros [= <-]. now apply call_type_converted in Hv.
Qed.

(** *** The launcher's parser *)

Lemma parser_actions :
  parser =
  [ {| option_strings := ["-h"; "--help"]; dest := "help"; kind := Help |};
    {| option_strings := ["--port"]; dest := "port";
       kind := Store type_int (PyInt 9090) |};
    {| option_strings := ["--model"]; dest := "model";
       kind := Store type_str (PyStr "small.en") |};
    {| option_strings := ["--vad_threshold"]; dest := "vad_threshold";
       kind := Store type_float (PyFloat float_0_3) |} ].
Proof. reflexivity. Qed.

Lemma valid_args_insert (dst : string) (t : type_func) (v : pyval) (ns : namespace) :
  In (dst, t) [("port", type_int); ("model", type_str);
               ("vad_threshold", type_float)] ->
  converted t v -> valid_args ns -> valid_args (<[dst := v]> ns).
Proof.
  intros Hin Hv (Hport & Hmodel & Hthr). unfold valid_args.
  destruct Hin as [[= <- <-]|[[= <- <-]|[[= <- <-]|[]]]].
  - rewrite lookup_insert_eq, !lookup_insert_ne by discriminate. eauto.
  - rewrite lookup_insert_eq, !lookup_insert_ne by discriminate. eauto.
  - rewrite lookup_insert_eq, !lookup_insert_ne by discriminate. eauto.
Qed.

Lemma take_action_valid (a : action) (args : list string) (ns ns' : namespace) :
  In a parser -> valid_args ns -> take_action a args ns = Ok ns' -> valid_args ns'.
Proof.
  rewrite parser_actions. intros Ha Hns H.
  destruct Ha as [<-|[<-|[<-|[<-|[]]]]]; unfold take_action in H; cbn [kind dest] in H;
    try discriminate;
    destruct args as [|s [|s' args']]; try discriminate;
    apply rbind_ok in H as (v & Hv & [= <-]);
    apply get_values_converted in Hv;
    (eapply valid_args_insert; [|exact Hv|exact Hns]); cbn; tauto.
Qed.

Lemma initial_namespace_valid : valid_args (initial_namespace parser).
Proof.
  unfold valid_args.
  repeat split; eexists; (split; [vm_compute; reflexivity|]); right; eauto.
  exists 9090. split; [reflexivity|].
  change (Z.abs 9090) with (10 ^ 3 + 8090).
  assert (10 ^ 3 * 10 <= 10 ^ PyInt.max_str_digits).
  { change (10 ^ 3 * 10) with (10 ^ 4). apply Z.pow_le_mono_r; [lia|].
    unfold PyInt.max_str_digits. lia. }
  lia.
Qed.

(** Every namespace the launcher's parser returns has the three attributes,
    each with a value of its option's type. *)
Lemma parse_args_valid (argv : list string) (args : namespace) :
  parse_args parser argv = Ok args -> valid_args args.
Proof.
  unfold parse_args. intros H.
  apply rbind_ok in H as (items & Hitems & H).
  apply rbind_ok in H as ([[ns seen] extras] & Hcons & H).
  apply rbind_ok in H as (ns' & Hconv & H).
  destruct extras; [|discriminate]. injection H as <-.
  apply classify_in in Hitems.
  assert (Hns : valid_args ns).
  { eapply (consume_preserves parser valid_args take_action_valid);
      [reflexivity|exact Hitems|exact initial_namespace_valid|exact Hcons]. }
  eapply (convert_defaults_preserves valid_args); [|exact Hns|exact Hconv].
  intros a t d v ns0 Ha Hk Hv Hns0. rewrite parser_actions in Ha.
  apply call_type_converted in Hv.
  destruct Ha as [<-|[<-|[<-|[<-|[]]]]]; cbn in Hk; try discriminate;
    injection Hk as <- <-;
    (eapply valid_args_insert; [|exact Hv|exact Hns0]); cbn; tauto.
Qed.

(** *** [main] *)

Lemma converted_str (t : type_func) (v : pyval) :
  converted t v -> exists s, py_str v = Ok s.
Proof.
  intros [->|H]; [now exists "[]"|].
  destruct t.
  - destruct H as (n & -> & Hn). cbn. unfold PyInt.to_string.
    apply Z.ltb_lt in Hn. rewrite Hn. eauto.
  - destruct H as (s & ->). cbn. eauto.
  - destruct H as (x & ->). cbn. eauto.
Qed.

(** The conversions [main] applies to a parsed namespace all succeed. *)
Lemma valid_args_usable (args : namespace) :
  valid_args args ->
  exists port model vad_threshold s path line,
    args !! "port" = Some port /\
    args !! "model" = Some model /\
    args !! "vad_threshold" = Some vad_threshold /\
    py_str vad_threshold = Ok s /\
    model_path args = Ok path /\
    diagnostic args = Ok line.
Proof.
  intros ((port & Hport & Cport) & (model & Hmodel & Cmodel) & (thr & Hthr & Cthr)).
  destruct (converted_str _ _ Cport) as (port_s & Hps).
  destruct (converted_str _ _ Cmodel) as (model_s & Hms).
  destruct (converted_str _ _ Cthr) as (thr_s & Hts).
  assert (Hpath : exists path, model_path args = Ok path).
  { unfold model_path, getattr. rewrite Hmodel. cbn [or_raise rbind].
    destruct Cmodel as [->|(m & ->)]; cbn [py_contains rbind]; [eauto|].
    destruct (contains_char "/" m); eauto. }
  destruct Hpath as (path & Hpath).
  exists port, model, thr, thr_s, path.
  eexists. repeat (split; [eassumption|]).
  unfold diagnostic, getattr. rewrite Hport, Hmodel, Hthr. cbn [or_raise rbind].
  rewrite Hps, Hms, Hts. cbn [rbind]. reflexivity.
Qed.

(** What [launch] does in full, by the outcome of the library's calls. *)
Lemma launch_unfold (lib : library) (args : namespace) (w : world)
    (port vad_threshold path : pyval) (s line : string) :
  args !! "port" = Some port ->
  args !! "vad_threshold" = Some vad_threshold ->
  py_str vad_threshold = Ok s ->
  model_path args = Ok path ->
  diagnostic args = Ok line ->
  launch lib args w =
  match transcription_server_raises lib with
  | Some e => (Raise e, after_setenv w s)
  | None =>
      (match run_raises lib (PyStr "0.0.0.0") port (PyStr "faster_whisper")
                        path (PyBool true) with
       | Some e => Raise e
       | None => Ok tt
       end,
       after_run w s line port path)
  end.
Proof.
  intros Hport Hthr Hs Hpath Hline.
  unfold launch, bind, lift, getattr. rewrite Hthr. cbn [or_raise].
  rewrite Hs. unfold environ_set, external, bind, emit, lift.
  cbn [environ vad_init trace].
  destruct (transcription_server_raises lib); [reflexivity|].
  rewrite Hpath, Hline. unfold print, emit. cbn [environ vad_init trace].
  rewrite Hport. cbn [or_raise].
  destruct (run_raises lib _ _ _ _ _); reflexivity.
Qed.

Lemma custom_model_paths_app (t u : list event) :
  custom_model_paths (t ++ u) = (custom_model_paths t ++ custom_model_paths u)%list.
Proof. unfold custom_model_paths. apply flat_map_app. Qed.

(** [main] on a command line the parser accepts. *)
Lemma main_unfold (lib : library) (argv : list string) (args : namespace) (w : world) :
  parse_args parser argv = Ok args ->
  exists port model vad_threshold s path line,
    args !! "port" = Some port /\
    args !! "model" = Some model /\
    args !! "vad_threshold" = Some vad_threshold /\
    py_str vad_threshold = Ok s /\
    model_path args = Ok path /\
    diagnostic args = Ok line /\
    main lib argv w =
    match transcription_server_raises lib with
    | Some e => (Raise e, after_setenv w s)
    | None =>
        (match run_raises lib (PyStr "0.0.0.0") port (PyStr "faster_whisper")
                          path (PyBool true) with
         | Some e => Raise e
         | None => Ok tt
         end,
         after_run w s line port path)
    end.
Proof.
  intros Hparse.
  destruct (valid_args_usable args (parse_args_valid argv args Hparse))
    as (port & model & thr & s & path & line & Hport & Hmodel & Hthr & Hs & Hpath & Hline).
  exists port, model, thr, s, path, line.
  repeat (split; [assumption|]).
  unfold main, bind, lift. rewrite Hparse.
  now apply launch_unfold with (vad_threshold := thr).
Qed.

(** C2. Whenever the parser accepts the command line, [main] leaves in
    [os.environ] the string form of the parsed [vad_threshold] under
    [WHISPER_LIVE_VAD_THRESHOLD], and changes no other variable; this holds
    whether the server then starts, fails or returns. *)
Theorem main_mirrors_threshold_into_environment
    (lib : library) (argv : list string) (args : namespace) (w : world)
    (Hparse : parse_args parser argv = Ok args) :
  exists vad_threshold s,
    args !! "vad_threshold" = Some vad_threshold /\
    py_str vad_threshold = Ok s /\
    environ (snd (main lib argv w)) = <[VAD_ENV := s]> (environ w).
Proof.
  destruct (main_unfold lib argv args w Hparse)
    as (port & model & thr & s & path & line & _ & _ & Hthr & Hs & _ & _ & Hmain).
  exists thr, s. repeat (split; [assumption|]). rewrite Hmain.
  destruct (transcription_server_raises lib); reflexivity.
Qed.

Lemma main_mirrors_threshold_into_environment_witness :
  environ (snd (main quiet_library ["--vad_threshold"; "0.15"] (fresh ∅)))
  = {[ VAD_ENV := "0.15" ]}.
Proof.
  destruct (main_mirrors_threshold_into_environment quiet_library
              ["--vad_threshold"; "0.15"]
              (<["vad_threshold" := PyFloat (S754_finite false 5404319552844595 (-55))]>
                 (initial_namespace parser))
              (fresh ∅) eq_refl) as (v & s & Hv & Hs & Henv).
  vm_compute in Hv. injection Hv as <-.
  vm_compute in Hs. injection Hs as <-.
  exact Henv.
Defined.

(** C3. Whenever the parser accepts the command line and the server object
    is built, the custom model path [main] hands to [server.run] is the
    model string itself if it contains the separator ["/"], and [None] if
    it contains none. *)
Theorem custom_model_path_follows_separator
    (lib : library) (argv : list string) (args : namespace) (w : world) (m : string)
    (Hparse : parse_args parser argv = Ok args)
    (Hmodel : args !! "model" = Some (PyStr m))
    (Hserver : transcription_server_raises lib = None) :
  (contains_char "/" m = true ->
   custom_model_paths (trace (snd (main lib argv w))) =
   (custom_model_paths (trace w) ++ [PyStr m])%list) /\
  (contains_char "/" m = false ->
   custom_model_paths (trace (snd (main lib argv w))) =
   (custom_model_paths (trace w) ++ [PyNone])%list).
Proof.
  destruct (main_unfold lib argv args w Hparse)
    as (port & model & thr & s & path & line & _ & _ & _ & _ & Hpath & _ & Hmain).
  rewrite Hmain, Hserver. cbn [snd after_run trace].
  rewrite !custom_model_paths_app. cbn. rewrite !app_nil_r.
  unfold model_path, getattr in Hpath. rewrite Hmodel in Hpath.
  cbn [or_raise rbind py_contains] in Hpath.
  split; intros Hsep; rewrite Hsep in Hpath; injection Hpath as <-; reflexivity.
Qed.

Lemma custom_model_path_follows_separator_witness :
  custom_model_paths
    (trace (snd (main quiet_library ["--model"; "models/custom.bin"] (fresh ∅))))
  = [PyStr "models/custom.bin"].
Proof.
  exact (proj1 (custom_model_path_follows_separator quiet_library
                  ["--model"; "models/custom.bin"]
                  (<["model" := PyStr "models/custom.bin"]> (initial_namespace parser))
                  (fresh ∅) "models/custom.bin" eq_refl eq_refl eq_refl) eq_refl).
Defined.

(** C4. Whenever the parser accepts the command line and the server object
    is built, [main] calls [server.run] exactly once, with the host
    ["0.0.0.0"], the parsed port, the backend ["faster_whisper"], the
    resolved custom model path and [single_model=True]. *)
Theorem main_invokes_run_with_fixed_arguments
    (lib : library) (argv : list string) (args : namespace) (w : world)
    (Hparse : parse_args parser argv = Ok args)
    (Hserver : transcription_server_raises lib = None) :
  exists port path,
    args !! "port" = Some port /\
    model_path args = Ok path /\
    runs (trace (snd (main lib argv w))) =
    (runs (trace w) ++
     [ServerRun (PyStr "0.0.0.0") port (PyStr "faster_whisper") path
                (PyBool true)])%list.
Proof.
  destruct (main_unfold lib argv args w Hparse)
    as (port & model & thr & s & path & line & Hport & _ & _ & _ & Hpath & _ & Hmain).
  exists port, path. repeat (split; [assumption|]).
  rewrite Hmain, Hserver. cbn [snd after_run trace].
  rewrite !runs_app. cbn. rewrite !app_nil_r. reflexivity.
Qed.

Lemma main_invokes_run_with_fixed_arguments_witness :
  runs (trace (snd (main quiet_library ["--port"; "8000"] (fresh ∅)))) =
  [ServerRun (PyStr "0.0.0.0") (PyInt 8000) (PyStr "faster_whisper") PyNone
             (PyBool true)].
Proof.
  destruct (main_invokes_run_with_fixed_arguments quiet_library
              ["--port"; "8000"]
              (<["port" := PyInt 8000]> (initial_namespace parser))
              (fresh ∅) eq_refl eq_refl) as (port & path & Hport & Hpath & Hruns).
  vm_compute in Hport. injection Hport as <-.
  vm_compute in Hpath. injection Hpath as <-.
  exact Hruns.
Defined.

(** C5. With no flag on the command line the parsed configuration is
    port 9090, model "small.en" and threshold 0.3 (the float the literal
    [0.3] denotes), and nothing else. *)
Theorem defaults_when_flags_omitted :
  parse_args parser [] =
  Ok {[ "port" := PyInt 9090; "model" := PyStr "small.en";
        "vad_threshold" := PyFloat float_0_3 ]} /\
  PyFloat.of_string "0.3" = Some float_0_3.
Proof. split; vm_compute; reflexivity. Qed.

(** C8. Started with [--vad_threshold 0.15], [main] prints, once the server
    object is built and before it calls [server.run], one line, and that
    line contains "vad_threshold=0.15". *)
Theorem diagnostic_shows_threshold_0_15
    (lib : library) (w : world)
    (Hserver : transcription_server_raises lib = None) :
  exists line before,
    trace (snd (main lib ["--vad_threshold"; "0.15"] w)) =
    (trace w ++ before ++ [PrintLine line; ServerRun (PyStr "0.0.0.0") (PyInt 9090)
                                         (PyStr "faster_whisper") PyNone (PyBool true)])%list /\
    printed before = [] /\
    has_substring "vad_threshold=0.15" line.
Proof.
  assert (Hparse : parse_args parser ["--vad_threshold"; "0.15"] =
                   Ok (<["vad_threshold" := PyFloat (S754_finite false 5404319552844595 (-55))]>
                         (initial_namespace parser)))
    by (vm_compute; reflexivity).
  destruct (main_unfold lib _ _ w Hparse)
    as (port & model & thr & s & path & line & Hport & _ & _ & _ & Hpath & Hline & Hmain).
  vm_compute in Hport. injection Hport as <-.
  vm_compute in Hpath. injection Hpath as <-.
  vm_compute in Hline. injection Hline as <-.
  eexists. exists [NewTranscriptionServer].
  rewrite Hmain, Hserver. cbn [snd after_run trace].
  split; [rewrite <- !app_assoc; reflexivity|].
  split; [reflexivity|].
  exists "[WhisperLive] Starting server on port 9090 with model=small.en, ", "".
  reflexivity.
Qed.

Lemma diagnostic_shows_threshold_0_15_witness :
  exists line,
    printed (trace (snd (main quiet_library ["--vad_threshold"; "0.15"] (fresh ∅))))
    = [line] /\
    has_substring "vad_threshold=0.15" line.
Proof.
  destruct (diagnostic_shows_threshold_0_15 quiet_library (fresh ∅) eq_refl)
    as (line & before & Htrace & Hbefore & Hsub).
  exists line. split; [|exact Hsub].
  rewrite Htrace. cbn [fresh trace app].
  rewrite printed_app, Hbefore. reflexivity.
Defined.

(** *** Thresholds outside (0, 1) *)

Lemma explicit_tuples_store (p : Argparse.parser) (a : action) (o e : string) t d :
  kind a = Store t d -> explicit_tuples p a o e = Ok ([(a, [e])], None).
Proof. intros Hk. destruct e; cbn; rewrite Hk; reflexivity. Qed.

Lemma float_string_not_dashes (s : string) (x : PyFloat.float) :
  PyFloat.of_string s = Some x -> String.eqb s "--" = false.
Proof.
  intros Hx. destruct (String.eqb s "--") eqn:E; [|reflexivity].
  apply String.eqb_eq in E. subst s. vm_compute in Hx. discriminate.
Qed.

(** The namespace both spellings of the threshold lead to. *)
Lemma parse_args_threshold (s : string) (x : PyFloat.float) (argv : list string) :
  PyFloat.of_string s = Some x ->
  threshold_given s argv ->
  parse_args parser argv =
  Ok (<["vad_threshold" := PyFloat x]> (initial_namespace parser)).
Proof.
  intros Hx Hgiven.
  pose proof (float_string_not_dashes s x Hx) as Hdd.
  assert (Hmap : <["model" := PyStr "small.en"]>
                   (<["vad_threshold" := PyFloat x]> (initial_namespace parser))
                 = <["vad_threshold" := PyFloat x]> (initial_namespace parser)).
  { apply insert_id. rewrite lookup_insert_ne by discriminate. reflexivity. }
  set (a := {| option_strings := ["--vad_threshold"]; dest := "vad_threshold";
               kind := Store type_float (PyFloat float_0_3) |}).
  assert (Htake : take_actions [(a, [s])] (initial_namespace parser) =
                  Ok (<["vad_threshold" := PyFloat x]> (initial_namespace parser))).
  { unfold take_actions, take_action, get_values. cbn [kind dest a].
    rewrite Hdd. unfold call_type. rewrite Hx. reflexivity. }
  destruct Hgiven as [->|[-> Harg]]; unfold parse_args.
  - assert (Hc : classify parser false ["--vad_threshold=" +:+ s] =
                 Ok [("--vad_threshold=" +:+ s,
                      Option_ {| ot_action := Some a; ot_string := "--vad_threshold";
                                 ot_explicit := Some s |})])
      by (vm_compute; reflexivity).
    rewrite Hc. cbn [rbind]. unfold consume.
    cbn [ot_action ot_explicit ot_string].
    rewrite (explicit_tuples_store parser a "--vad_threshold" s type_float
               (PyFloat float_0_3) eq_refl).
    cbn [rbind fst snd]. rewrite Htake. cbn [rbind].
    change (convert_defaults parser _ _)
      with (Ok (A := namespace)
               (<["model" := PyStr "small.en"]>
                  (<["vad_threshold" := PyFloat x]> (initial_namespace parser)))).
    cbn [rbind]. rewrite Hmap. reflexivity.
  - assert (Hc : classify parser false ["--vad_threshold"; s] =
                 Ok [("--vad_threshold",
                      Option_ {| ot_action := Some a; ot_string := "--vad_threshold";
                                 ot_explicit := None |});
                     (s, Argument)]).
    { unfold classify.
      change (String.eqb "--vad_threshold" "--") with false. cbv iota.
      change (parse_optional parser "--vad_threshold")
        with (Ok (Some {| ot_action := Some a; ot_string := "--vad_threshold";
                          ot_explicit := None |})).
      rewrite Hdd, Harg. reflexivity. }
    rewrite Hc. cbn [rbind]. unfold consume.
    cbn [ot_action ot_explicit ot_string rbind fst snd kind a app].
    rewrite Htake. cbn [rbind].
    change (convert_defaults parser _ _)
      with (Ok (A := namespace)
               (<["model" := PyStr "small.en"]>
                  (<["vad_threshold" := PyFloat x]> (initial_namespace parser)))).
    cbn [rbind]. rewrite Hmap. reflexivity.
Qed.

Lemma string_app_assoc (a b c : string) : (a +:+ b) +:+ c = a +:+ (b +:+ c).
Proof.
  induction a as [|x a IH]; [reflexivity|].
  exact (f_equal (String x) IH).
Qed.

(** The diagnostic line ends with the string form of the threshold. *)
Lemma diagnostic_ends_with_threshold (args : namespace) (v : pyval) (line : string) :
  args !! "vad_threshold" = Some v ->
  diagnostic args = Ok line ->
  exists before s, py_str v = Ok s /\ line = before +:+ "vad_threshold=" +:+ s.
Proof.
  intros Hthr Hline. unfold diagnostic in Hline.
  apply rbind_ok in Hline as (port & _ & Hline).
  apply rbind_ok in Hline as (port_s & _ & Hline).
  apply rbind_ok in Hline as (model & _ & Hline).
  apply rbind_ok in Hline as (model_s & _ & Hline).
  apply rbind_ok in Hline as (thr & Hget & Hline).
  apply rbind_ok in Hline as (thr_s & Hs & [= <-]).
  unfold getattr in Hget. rewrite Hthr in Hget. injection Hget as <-.
  exists ("[WhisperLive] Starting server on port " +:+ port_s
          +:+ " with model=" +:+ model_s +:+ ", "), thr_s.
  split; [exact Hs|]. rewrite !string_app_assoc. reflexivity.
Qed.

(** C6. [main] checks no range.  Whatever float [x] the threshold text [s]
    denotes, inside (0, 1) or not: the command line giving [s] is accepted
    with [vad_threshold = x]; and on every accepted command line whose
    threshold is [x], the string form of [x] goes into the environment
    variable and ends the diagnostic line. *)
Theorem out_of_range_threshold_is_forwarded
    (lib : library) (w : world) (s : string) (x : PyFloat.float)
    (Hfloat : PyFloat.of_string s = Some x) :
  (forall argv,
     threshold_given s argv ->
     parse_args parser argv =
     Ok (<["vad_threshold" := PyFloat x]> (initial_namespace parser))) /\
  (forall argv args,
     parse_args parser argv = Ok args ->
     args !! "vad_threshold" = Some (PyFloat x) ->
     environ (snd (main lib argv w)) = <[VAD_ENV := PyFloat.repr x]> (environ w) /\
     (transcription_server_raises lib = None ->
      exists before,
        printed (trace (snd (main lib argv w))) =
        (printed (trace w) ++
         [before +:+ "vad_threshold=" +:+ PyFloat.repr x])%list)).
Proof.
  split.
  - intros argv Hgiven. now apply parse_args_threshold with (s := s).
  - intros argv args Hparse Hx.
    destruct (main_unfold lib argv args w Hparse)
      as (port & model & thr & t & path & line & _ & _ & Hthr & Ht & _ & Hline & Hmain).
    rewrite Hx in Hthr. injection Hthr as <-.
    cbn [py_str] in Ht. injection Ht as <-.
    split.
    + rewrite Hmain. destruct (transcription_server_raises lib); reflexivity.
    + intros Hserver.
      destruct (diagnostic_ends_with_threshold args _ line Hx Hline)
        as (before & r & Hr & ->).
      cbn [py_str] in Hr. injection Hr as <-.
      exists before. rewrite Hmain, Hserver. cbn [snd after_run trace].
      rewrite !printed_app. cbn [printed flat_map app]. rewrite !app_nil_r.
      reflexivity.
Qed.

Lemma out_of_range_threshold_is_forwarded_witness :
  parse_args parser ["--vad_threshold"; "5.0"] =
    Ok (<["vad_threshold" := PyFloat (S754_finite false 5629499534213120 (-50))]>
          (initial_namespace parser)) /\
  environ (snd (main quiet_library ["--vad_threshold"; "5.0"] (fresh ∅)))
    = {[ VAD_ENV := "5.0" ]}.
Proof.
  destruct (out_of_range_threshold_is_forwarded quiet_library (fresh ∅) "5.0"
              (S754_finite false 5629499534213120 (-50)) eq_refl)
    as (Haccept & Hforward).
  pose proof (Haccept ["--vad_threshold"; "5.0"]
                (or_intror (conj eq_refl eq_refl))) as Hparse.
  split; [exact Hparse|].
  exact (proj1 (Hforward _ _ Hparse eq_refl)).
Defined.

(** The command line of the claim's example, in full. *)
Example threshold_5_is_forwarded :
  let w := snd (main quiet_library ["--vad_threshold"; "5.0"] (fresh ∅)) in
  environ w = {[ VAD_ENV := "5.0" ]} /\
  printed (trace w) =
  ["[WhisperLive] Starting server on port 9090 with model=small.en, vad_threshold=5.0"].
Proof. vm_compute. split; reflexivity. Qed.

(** The same with a negative threshold, which argparse reads as an
    argument because the parser has no option that looks like a number. *)
Example negative_threshold_is_forwarded :
  environ (snd (main quiet_library ["--vad_threshold"; "-0.5"] (fresh ∅)))
    = {[ VAD_ENV := "-0.5" ]}.
Proof. vm_compute. reflexivity. Qed.

(** Any string can be given as the model, but ["--"] written after ["="]. *)
Lemma any_model_string_is_accepted (m : string) :
  String.eqb m "--" = false ->
  parse_args parser ["--model=" +:+ m] =
  Ok (<["model" := PyStr m]> (initial_namespace parser)).
Proof.
  intros Hdd.
  set (a := {| option_strings := ["--model"]; dest := "model";
               kind := Store type_str (PyStr "small.en") |}).
  assert (Hc : classify parser false ["--model=" +:+ m] =
               Ok [("--model=" +:+ m,
                    Option_ {| ot_action := Some a; ot_string := "--model";
                               ot_explicit := Some m |})])
    by (vm_compute; reflexivity).
  unfold parse_args. rewrite Hc. cbn [rbind]. unfold consume.
  cbn [ot_action ot_explicit ot_string].
  rewrite (explicit_tuples_store parser a "--model" m type_str
             (PyStr "small.en") eq_refl).
  cbn [rbind fst snd]. unfold take_actions, take_action, get_values.
  cbn [kind dest a]. rewrite Hdd. reflexivity.
Qed.

(** *** The script from end to end *)

(** Started with [--vad_threshold 0.15], the script leaves a process in
    which a detector built without threshold gets the float 0.15. *)
Example threshold_reaches_the_detector :
  let w := snd (script quiet_library ["--vad_threshold"; "0.15"] (fresh ∅)) in
  PyFloat.of_string "0.15" = Some (S754_finite false 5404319552844595 (-55)) /\
  delegations (trace (snd (VoiceActivityDetector quiet_library None None w))) =
  [(PyFloat (S754_finite false 5404319552844595 (-55)), PyInt 16000)].
Proof. vm_compute. split; reflexivity. Qed.

(** With no flag the model is the bare name "small.en", and no custom model
    path is passed. *)
Example default_model_has_no_custom_path :
  custom_model_paths (trace (snd (main quiet_library [] (fresh ∅)))) = [PyNone].
Proof. vm_compute. reflexivity. Qed.

(** What argparse rejects or answers with the help text never reaches the
    environment: [main] ends in [SystemExit] with the world untouched. *)
Example rejected_command_lines :
  main quiet_library ["--vad_threshold"; "loud"] (fresh ∅)
    = (Raise (SystemExit 2), fresh ∅) /\
  main quiet_library ["--vad_threshold"; "-1e3"] (fresh ∅)
    = (Raise (SystemExit 2), fresh ∅) /\
  main quiet_library ["--port"; "80"; "extra"] (fresh ∅)
    = (Raise (SystemExit 2), fresh ∅) /\
  main quiet_library ["-h"] (fresh ∅) = (Raise (SystemExit 0), fresh ∅).
Proof. vm_compute. repeat split; reflexivity. Qed.

(* ===================================================================== *)
(** ** Further properties *)
(* ===================================================================== *)

(** *** What [patched_init] prints and what it leaves alone *)

(** X1. When the conversion of line 16 yields [x]: if the library's
    constructor returns, [patched_init] returns and has printed exactly one
    line, "[WhisperLive] Using VAD threshold: " followed by the string form
    of [x]; if the library's constructor raises, [patched_init] raises the
    same exception and has printed nothing. *)
Theorem patched_init_reports_after_delegation
    (lib : library) (w : world) (threshold frame_rate : pyval) (x : PyFloat.float)
    (Hconf : configured_threshold w = Ok x) :
  (original_init_raises lib (PyFloat x) frame_rate = None ->
   fst (patched_init lib threshold frame_rate w) = Ok tt /\
   printed (trace (snd (patched_init lib threshold frame_rate w))) =
   (printed (trace w) ++
    ["[WhisperLive] Using VAD threshold: " +:+ PyFloat.repr x])%list) /\
  (forall e,
     original_init_raises lib (PyFloat x) frame_rate = Some e ->
     fst (patched_init lib threshold frame_rate w) = Raise e /\
     printed (trace (snd (patched_init lib threshold frame_rate w))) =
     printed (trace w)).
Proof.
  rewrite patched_init_unfold, Hconf. cbv zeta. split.
  - intros ->. cbn [fst snd trace]. split; [reflexivity|].
    rewrite !printed_app. cbn. rewrite app_nil_r. reflexivity.
  - intros e ->. cbn [fst snd trace]. split; [reflexivity|].
    rewrite printed_app. cbn. rewrite app_nil_r. reflexivity.
Qed.

Lemma patched_init_reports_after_delegation_witness :
  printed (trace (snd (patched_init quiet_library (PyFloat float_0_5) (PyInt 16000)
                         (fresh {[ VAD_ENV := "0.15" ]})))) =
  ["[WhisperLive] Using VAD threshold: 0.15"].
Proof.
  exact (proj2 (proj1 (patched_init_reports_after_delegation quiet_library
                         (fresh {[ VAD_ENV := "0.15" ]}) (PyFloat float_0_5)
                         (PyInt 16000) (S754_finite false 5404319552844595 (-55))
                         eq_refl) eq_refl)).
Defined.

(** X2. [patched_init] never writes to [os.environ] and never rebinds the
    detector's [__init__], whatever the environment holds and whether it
    returns or raises; the trace it leaves extends the one it found. *)
Theorem patched_init_leaves_process_state
    (lib : library) (w : world) (threshold frame_rate : pyval) :
  environ (snd (patched_init lib threshold frame_rate w)) = environ w /\
  vad_init (snd (patched_init lib threshold frame_rate w)) = vad_init w /\
  exists new, trace (snd (patched_init lib threshold frame_rate w)) =
              (trace w ++ new)%list.
Proof.
  rewrite patched_init_unfold.
  destruct (configured_threshold w) as [x|e]; cbv zeta.
  - destruct (original_init_raises lib (PyFloat x) frame_rate); cbn [snd environ vad_init trace];
      (split; [reflexivity|split; [reflexivity|]]).
    + eexists. reflexivity.
    + eexists. rewrite <- app_assoc. reflexivity.
  - cbn [snd]. split; [reflexivity|split; [reflexivity|]].
    exists []. now rewrite app_nil_r.
Qed.

(** *** How argparse fails *)











(** *** What [main] does and leaves alone *)



(** X4. Whatever the command line, accepted or not, [main] changes no
    environment variable but [WHISPER_LIVE_VAD_THRESHOLD] and does not
    rebind the detector's [__init__]. *)
Theorem main_touches_only_its_variable
    (lib : library) (argv : list string) (w : world) :
  (forall key, key <> VAD_ENV ->
     environ (snd (main lib argv w)) !! key = environ w !! key) /\
  vad_init (snd (main lib argv w)) = vad_init w.
Proof.
  destruct (parse_args parser argv) as [args|e] eqn:Hparse.
  - destruct (main_unfold lib argv args w Hparse)
      as (port & model & thr & s & path & line & _ & _ & _ & _ & _ & _ & Hmain).
    rewrite Hmain.
    destruct (transcription_server_raises lib);
      cbn [snd after_setenv after_run environ vad_init];
      (split; [intros key Hkey; now rewrite lookup_insert_ne|reflexivity]).
  - unfold main, bind, lift. rewrite Hparse. cbn. auto.
Qed.

(** X5. On an accepted command line [main] raises nothing of its own: it
    ends the way the library's calls end.  If [TranscriptionServer()]
    raises, [main] raises the same exception; otherwise, if [server.run]
    raises, [main] raises that exception; otherwise it returns. *)
Theorem main_ends_as_the_library_does
    (lib : library) (argv : list string) (args : namespace) (w : world)
    (Hparse : parse_args parser argv = Ok args) :
  exists port path,
    args !! "port" = Some port /\
    model_path args = Ok path /\
    fst (main lib argv w) =
    match transcription_server_raises lib with
    | Some e => Raise e
    | None =>
        match run_raises lib (PyStr "0.0.0.0") port (PyStr "faster_whisper")
                         path (PyBool true) with
        | Some e => Raise e
        | None => Ok tt
        end
    end.
Proof.
  destruct (main_unfold lib argv args w Hparse)
    as (port & model & thr & s & path & line & Hport & _ & _ & _ & Hpath & _ & Hmain).
  exists port, path. repeat (split; [assumption|]). rewrite Hmain.
  destruct (transcription_server_raises lib); reflexivity.
Qed.

Lemma main_ends_as_the_library_does_witness :
  fst (main quiet_library ["--port"; "8000"] (fresh ∅)) = Ok tt.
Proof.
  destruct (main_ends_as_the_library_does quiet_library ["--port"; "8000"]
              (<["port" := PyInt 8000]> (initial_namespace parser))
              (fresh ∅) eq_refl) as (port & path & _ & _ & Hfst).
  exact Hfst.
Defined.

(** X6. The threshold is mirrored before the server object is built: if
    [TranscriptionServer()] raises on an accepted command line, the
    environment variable already holds the string form of the threshold,
    while nothing has been printed and [server.run] has not been called. *)
Theorem server_construction_failure_stops_main
    (lib : library) (argv : list string) (args : namespace) (w : world) (e : exn)
    (Hparse : parse_args parser argv = Ok args)
    (Hserver : transcription_server_raises lib = Some e) :
  exists vad_threshold s,
    args !! "vad_threshold" = Some vad_threshold /\
    py_str vad_threshold = Ok s /\
    environ (snd (main lib argv w)) !! VAD_ENV = Some s /\
    printed (trace (snd (main lib argv w))) = printed (trace w) /\
    runs (trace (snd (main lib argv w))) = runs (trace w) /\
    fst (main lib argv w) = Raise e.
Proof.
  destruct (main_unfold lib argv args w Hparse)
    as (port & model & thr & s & path & line & _ & _ & Hthr & Hs & _ & _ & Hmain).
  exists thr, s. repeat (split; [assumption|]).
  rewrite Hmain, Hserver. cbn [fst snd after_setenv environ trace].
  rewrite lookup_insert_eq, printed_app, runs_app. cbn.
  rewrite !app_nil_r. auto.
Qed.

Lemma server_construction_failure_stops_main_witness :
  environ (snd (main
    {| init_default_threshold := PyFloat float_0_5;
       init_default_frame_rate := PyInt 16000;
       original_init_raises := fun _ _ => None;
       transcription_server_raises := Some (LibraryError "no model");
       run_raises := fun _ _ _ _ _ => None |}
    ["--vad_threshold"; "0.15"] (fresh ∅))) !! VAD_ENV = Some "0.15".
Proof.
  destruct (server_construction_failure_stops_main
              {| init_default_threshold := PyFloat float_0_5;
                 init_default_frame_rate := PyInt 16000;
                 original_init_raises := fun _ _ => None;
                 transcription_server_raises := Some (LibraryError "no model");
                 run_raises := fun _ _ _ _ _ => None |}
              ["--vad_threshold"; "0.15"]
              (<["vad_threshold" := PyFloat (S754_finite false 5404319552844595 (-55))]>
                 (initial_namespace parser))
              (fresh ∅) (LibraryError "no model") eq_refl eq_refl)
    as (v & s & Hv & Hs & Henv & _).
  vm_compute in Hv. injection Hv as <-.
  vm_compute in Hs. injection Hs as <-.
  exact Henv.
Defined.

(** X7. On an accepted command line with an integer port [n], a model
    string [m] and a float threshold [x], once the server object is built
    [main] prints exactly one line:
    "[WhisperLive] Starting server on port n with model=m, vad_threshold=x",
    with [n] in decimal and [x] in its string form.  Printing the port
    cannot fail: a parsed port is short enough for [str]. *)
Theorem main_prints_the_configuration
    (lib : library) (argv : list string) (args : namespace) (w : world)
    (n : Z) (m : string) (x : PyFloat.float)
    (Hparse : parse_args parser argv = Ok args)
    (Hport : args !! "port" = Some (PyInt n))
    (Hmodel : args !! "model" = Some (PyStr m))
    (Hthr : args !! "vad_threshold" = Some (PyFloat x))
    (Hserver : transcription_server_raises lib = None) :
  printed (trace (snd (main lib argv w))) =
  (printed (trace w) ++
   ["[WhisperLive] Starting server on port " +:+ decimal n
    +:+ " with model=" +:+ m
    +:+ ", vad_threshold=" +:+ PyFloat.repr x])%list.
Proof.
  destruct (main_unfold lib argv args w Hparse)
    as (port & model & thr & s & path & line & _ & _ & _ & _ & _ & Hline & Hmain).
  destruct (parse_args_valid argv args Hparse) as ((v & Hv & Cv) & _ & _).
  rewrite Hport in Hv. injection Hv as <-.
  destruct Cv as [Hlist|(n' & [= <-] & Hbound)]; [discriminate|].
  unfold diagnostic, getattr in Hline. rewrite Hport, Hmodel, Hthr in Hline.
  cbn [or_raise rbind py_str] in Hline. unfold PyInt.to_string in Hline.
  apply Z.ltb_lt in Hbound. rewrite Hbound in Hline.
  cbn [or_raise rbind] in Hline. injection Hline as <-.
  rewrite Hmain, Hserver. cbn [snd after_run trace].
  rewrite !printed_app. cbn [printed flat_map app]. rewrite !app_nil_r.
  reflexivity.
Qed.

Lemma main_prints_the_configuration_witness :
  printed (trace (snd (main quiet_library
                         ["--port"; "8000"; "--model"; "models/custom.bin"]
                         (fresh ∅)))) =
  ["[WhisperLive] Starting server on port 8000 with model=models/custom.bin, vad_threshold=0.3"].
Proof.
  exact (main_prints_the_configuration quiet_library
           ["--port"; "8000"; "--model"; "models/custom.bin"]
           (<["model" := PyStr "models/custom.bin"]>
              (<["port" := PyInt 8000]> (initial_namespace parser)))
           (fresh ∅) 8000 "models/custom.bin" float_0_3
           eq_refl eq_refl eq_refl eq_refl eq_refl).
Defined.

(** *** One more flag at the end of the command line *)

(** A command line consumed without extras has no ["--"] in it. *)
Lemma consume_no_extras (p : Argparse.parser) (n : nat) :
  forall items ns seen extras ns' seen',
    (length items <= n)%nat ->
    consume p items ns seen extras = Ok (ns', seen', []) ->
    extras = [] /\ Forall (fun it => snd it <> DashDash) items.
Proof.
  induction n as [|n IH]; intros items ns seen extras ns' seen' Hlen H.
  - destruct items; [|cbn in Hlen; lia]. injection H as _ _ ->. auto.
  - destruct items as [|[s c] rest].
    { injection H as _ _ ->. auto. }
    cbn [length] in Hlen. assert (Hn : (length rest <= n)%nat) by lia.
    unfold consume in H; fold consume in H.
    assert (Hextra : forall x : string, (extras ++ [x])%list = [] -> False)
      by (intros x Hx; destruct extras; discriminate).
    destruct c as [| |tup].
    + apply IH in H as [Hx _]; [|exact Hn]. now apply Hextra in Hx.
    + apply IH in H as [Hx _]; [|exact Hn]. now apply Hextra in Hx.
    + destruct (ot_action tup) as [a|].
      2:{ apply IH in H as [Hx _]; [|exact Hn]. now apply Hextra in Hx. }
      apply rbind_ok in H as ([tuples pending] & _ & H).
      unfold fst, snd in H. destruct pending as [a'|].
      * destruct (kind a').
        -- destruct rest as [|[v [| |tup']] rest']; try discriminate.
           apply rbind_ok in H as (ns1 & _ & H).
           apply IH in H as [-> Hall]; [|cbn [length] in Hn; lia].
           split; [reflexivity|].
           constructor; [discriminate|]. constructor; [discriminate|exact Hall].
        -- apply rbind_ok in H as (ns1 & _ & H).
           apply IH in H as [-> Hall]; [|exact Hn].
           split; [reflexivity|]. constructor; [discriminate|exact Hall].
      * apply rbind_ok in H as (ns1 & _ & H).
        apply IH in H as [-> Hall]; [|exact Hn].
        split; [reflexivity|]. constructor; [discriminate|exact Hall].
Qed.

Lemma classify_app (p : Argparse.parser) (argv more : list string) :
  forall items items',
    classify p false argv = Ok items ->
    Forall (fun it => snd it <> DashDash) items ->
    classify p false more = Ok items' ->
    classify p false (argv ++ more) = Ok (items ++ items')%list.
Proof.
  induction argv as [|s rest IH]; intros items items' H Hall Hmore.
  - injection H as <-. exact Hmore.
  - cbn [app]. unfold classify in H |- *; fold classify in H |- *.
    destruct (String.eqb s "--").
    + apply rbind_ok in H as (its & _ & [= <-]).
      inversion Hall as [|? ? Hhead _]; subst. now contradiction Hhead.
    + apply rbind_ok in H as (o & Ho & H).
      apply rbind_ok in H as (its & Hits & [= <-]).
      inversion Hall as [|? ? _ Htail]; subst.
      rewrite Ho. cbn [rbind].
      rewrite (IH its items' Hits Htail Hmore). reflexivity.
Qed.

Lemma consume_app (p : Argparse.parser) (n : nat) :
  forall items more ns seen extras r,
    (length items <= n)%nat ->
    consume p items ns seen extras = Ok r ->
    consume p (items ++ more) ns seen extras =
    consume p more (fst (fst r)) (snd (fst r)) (snd r).
Proof.
  induction n as [|n IH]; intros items more ns seen extras r Hlen H.
  - destruct items; [|cbn in Hlen; lia]. injection H as <-. reflexivity.
  - destruct items as [|[s c] rest].
    { injection H as <-. reflexivity. }
    cbn [length] in Hlen. assert (Hn : (length rest <= n)%nat) by lia.
    cbn [app]. unfold consume in H |- *; fold consume in H |- *.
    destruct c as [| |tup]; try (now apply IH).
    destruct (ot_action tup) as [a|]; [|now apply IH].
    apply rbind_ok in H as ([tuples pending] & Hex & H).
    rewrite Hex. cbn [rbind]. cbn [fst snd] in H |- *.
    destruct pending as [a'|].
    + destruct (kind a').
      * destruct rest as [|[v [| |tup']] rest']; try discriminate.
        cbn [app].
        apply rbind_ok in H as (ns1 & Ht & H). rewrite Ht. cbn [rbind].
        apply IH; [cbn [length] in Hn; lia|exact H].
      * apply rbind_ok in H as (ns1 & Ht & H). rewrite Ht. cbn [rbind].
        now apply IH.
    + apply rbind_ok in H as (ns1 & Ht & H). rewrite Ht. cbn [rbind].
      now apply IH.
Qed.

(** The only string default of the launcher's parser is the model's. *)
Lemma convert_defaults_parser (seen : list string) (ns : namespace) :
  convert_defaults parser seen ns =
  Ok (if existsb (String.eqb "model") seen then ns
      else <["model" := PyStr "small.en"]> ns).
Proof.
  rewrite parser_actions. unfold convert_defaults. cbn [kind dest call_type].
  destruct (existsb (String.eqb "model") seen); reflexivity.
Qed.

Lemma existsb_app_single (f : string -> bool) (l : list string) (x : string) :
  existsb f (l ++ [x]) = existsb f l || f x.
Proof. rewrite existsb_app. cbn. now rewrite orb_false_r. Qed.

(** An accepted command line followed by [--option=value]. *)
Lemma parse_args_append_flag (argv : list string) (args : namespace)
    (opt dst : string) (t : type_func) (s : string) (v : pyval) :
  In (opt, dst, t) declared_options ->
  parse_args parser argv = Ok args ->
  String.eqb s "--" = false ->
  call_type t s = Ok v ->
  parse_args parser (argv ++ [opt +:+ "=" +:+ s]) = Ok (<[dst := v]> args).
Proof.
  intros Hin Hparse Hdd Hv. unfold parse_args in Hparse |- *.
  apply rbind_ok in Hparse as (items & Hitems & Hparse).
  apply rbind_ok in Hparse as ([[ns1 seen1] extras1] & Hcons & Hparse).
  apply rbind_ok in Hparse as (ns' & Hconv & Hparse).
  destruct extras1; [|discriminate]. injection Hparse as ->.
  destruct (consume_no_extras _ _ _ _ _ _ _ _ (Nat.le_refl _) Hcons) as [_ Hall].
  rewrite convert_defaults_parser in Hconv. injection Hconv as <-.
  assert (Hflag : exists a d,
             kind a = Store t d /\ dest a = dst /\
             classify parser false [opt +:+ "=" +:+ s] =
             Ok [(opt +:+ "=" +:+ s,
                  Option_ {| ot_action := Some a; ot_string := opt;
                             ot_explicit := Some s |})]).
  { destruct Hin as [[= <- <- <-]|[[= <- <- <-]|[[= <- <- <-]|[]]]];
      eexists; eexists; (split; [|split; [|vm_compute; reflexivity]]);
      reflexivity. }
  destruct Hflag as (a & d & Hkind & Hdest & Hflag).
  rewrite (classify_app parser argv _ items _ Hitems Hall Hflag). cbn [rbind].
  rewrite (consume_app parser _ items _ _ _ _ _ (Nat.le_refl _) Hcons).
  cbn [fst snd]. unfold consume. cbn [ot_action ot_explicit ot_string].
  rewrite (explicit_tuples_store parser a opt s t d Hkind).
  cbn [rbind fst snd]. unfold take_actions, take_action, get_values.
  rewrite Hkind, Hdd, Hv. cbn [rbind map fst]. rewrite Hdest.
  rewrite convert_defaults_parser. cbn [rbind].
  rewrite existsb_app_single. f_equal.
  destruct (String.eqb "model" dst) eqn:Hm.
  - apply String.eqb_eq in Hm. rewrite <- Hm, orb_true_r.
    destruct (existsb _ seen1); [reflexivity|].
    now rewrite insert_insert_eq.
  - apply String.eqb_neq in Hm. rewrite orb_false_r.
    destruct (existsb _ seen1); [reflexivity|].
    now apply insert_insert_ne.
Qed.

Lemma parse_args_nil : parse_args parser [] = Ok (initial_namespace parser).
Proof. vm_compute. reflexivity. Qed.

(** X8. The port is not range-checked.  Every text [int()] accepts, written
    [--port=s], is accepted as the port, be it negative, zero or above
    65535, and once the server object is built the integer is handed to
    [server.run] as it is. *)
Theorem port_is_not_range_checked
    (lib : library) (w : world) (s : string) (n : Z)
    (Hint : PyInt.of_string s = Some n) :
  parse_args parser ["--port=" +:+ s] =
    Ok (<["port" := PyInt n]> (initial_namespace parser)) /\
  (transcription_server_raises lib = None ->
   runs (trace (snd (main lib ["--port=" +:+ s] w))) =
   (runs (trace w) ++
    [ServerRun (PyStr "0.0.0.0") (PyInt n) (PyStr "faster_whisper") PyNone
               (PyBool true)])%list).
Proof.
  assert (Hdd : String.eqb s "--" = false).
  { destruct (String.eqb s "--") eqn:E; [|reflexivity].
    apply String.eqb_eq in E. subst s. vm_compute in Hint. discriminate. }
  assert (Hparse : parse_args parser ["--port=" +:+ s] =
                   Ok (<["port" := PyInt n]> (initial_namespace parser))).
  { apply (parse_args_append_flag [] _ "--port" "port" type_int s (PyInt n));
      [cbn; tauto|exact parse_args_nil|exact Hdd|].
    cbn. rewrite Hint. reflexivity. }
  split; [exact Hparse|]. intros Hserver.
  destruct (main_unfold lib _ _ w Hparse)
    as (port & model & thr & t & path & line & Hport & _ & _ & _ & Hpath & _ & Hmain).
  rewrite lookup_insert_eq in Hport. injection Hport as <-.
  unfold model_path, getattr in Hpath.
  rewrite lookup_insert_ne in Hpath by discriminate.
  change (initial_namespace parser !! "model") with (Some (PyStr "small.en")) in Hpath.
  cbn in Hpath. injection Hpath as <-.
  rewrite Hmain, Hserver. cbn [snd after_run trace].
  rewrite !runs_app. cbn. rewrite !app_nil_r. reflexivity.
Qed.

Lemma port_is_not_range_checked_witness :
  parse_args parser ["--port=-70000"] =
  Ok (<["port" := PyInt (-70000)]> (initial_namespace parser)).
Proof.
  exact (proj1 (port_is_not_range_checked quiet_library (fresh ∅) "-70000"
                  (-70000) eq_refl)).
Defined.

(** X9. A flag written last wins.  If the parser accepts a command line,
    it also accepts that command line followed by [--option=value], for
    any of the three options and any value the option's [type=] converts,
    and the result differs only in that option's attribute, which holds
    the converted value. *)
Theorem later_flag_overrides
    (argv : list string) (args : namespace)
    (opt dst : string) (t : type_func) (s : string) (v : pyval)
    (Hopt : In (opt, dst, t) declared_options)
    (Hparse : parse_args parser argv = Ok args)
    (Hdashes : String.eqb s "--" = false)
    (Hvalue : call_type t s = Ok v) :
  parse_args parser (argv ++ [opt +:+ "=" +:+ s]) = Ok (<[dst := v]> args).
Proof. now apply parse_args_append_flag with (t := t). Qed.

Lemma later_flag_overrides_witness :
  parse_args parser (["--vad_threshold"; "0.15"] ++ ["--vad_threshold=0.5"]) =
  Ok (<["vad_threshold" := PyFloat float_0_5]>
        (<["vad_threshold" := PyFloat (S754_finite false 5404319552844595 (-55))]>
           (initial_namespace parser))).
Proof.
  exact (later_flag_overrides ["--vad_threshold"; "0.15"] _
           "--vad_threshold" "vad_threshold" type_float "0.5" (PyFloat float_0_5)
           (or_intror (or_intror (or_introl eq_refl))) eq_refl eq_refl eq_refl).
Defined.

(** *** Abbreviated options *)

Lemma prefix_in_prefixes (o : string) :
  forall q, String.prefix q o = true -> In q (prefixes o).
Proof.
  induction o as [|c o IH]; intros q Hq.
  - destruct q; [now left|discriminate].
  - destruct q as [|c' q]; [now left|]. right.
    cbn in Hq. destruct (ascii_dec c' c) as [->|]; [|discriminate].
    apply in_map. now apply IH.
Qed.

(** Two first strings that argparse reads as the same option give the same
    result. *)
Lemma same_option_same_result (p : Argparse.parser) (q o : string)
    (tup : option_tuple) (a : action) (rest : list string) :
  String.eqb q "--" = false -> String.eqb o "--" = false ->
  parse_optional p q = Ok (Some tup) ->
  parse_optional p o = Ok (Some tup) ->
  ot_action tup = Some a ->
  parse_args p (q :: rest) = parse_args p (o :: rest).
Proof.
  intros Hq Ho Hpq Hpo Ha. unfold parse_args, classify; fold classify.
  rewrite Hq, Ho, Hpq, Hpo. cbn [rbind].
  destruct (classify p false rest) as [items|e]; [|reflexivity].
  cbn [rbind]. unfold consume; fold consume. rewrite Ha. reflexivity.
Qed.

(** How argparse reads an abbreviation of a long option, alone and with a
    value attached. *)
Lemma abbreviation_is_read_as_option (opt q : string) :
  In opt long_options ->
  String.prefix q opt = true ->
  (3 <= String.length q)%nat ->
  exists a,
    String.eqb q "--" = false /\
    parse_optional parser q =
      Ok (Some {| ot_action := Some a; ot_string := opt; ot_explicit := None |}) /\
    parse_optional parser opt =
      Ok (Some {| ot_action := Some a; ot_string := opt; ot_explicit := None |}) /\
    forall s,
      String.eqb (q +:+ "=" +:+ s) "--" = false /\
      String.eqb (opt +:+ "=" +:+ s) "--" = false /\
      parse_optional parser (q +:+ "=" +:+ s) =
        Ok (Some {| ot_action := Some a; ot_string := opt; ot_explicit := Some s |}) /\
      parse_optional parser (opt +:+ "=" +:+ s) =
        Ok (Some {| ot_action := Some a; ot_string := opt; ot_explicit := Some s |}).
Proof.
  intros Hopt Hq Hlen. apply prefix_in_prefixes in Hq.
  destruct Hopt as [<-|[<-|[<-|[<-|[]]]]]; cbn in Hq;
    repeat (destruct Hq as [<-|Hq]; [try (cbn in Hlen; lia)|]);
    try contradiction;
    eexists; (split; [reflexivity|]);
    (split; [vm_compute; reflexivity|]);
    (split; [vm_compute; reflexivity|]);
    intros s; (split; [reflexivity|]); (split; [reflexivity|]);
    (split; vm_compute; reflexivity).
Qed.

(** X10. Every abbreviation of a long option is accepted: a command line
    that starts with a prefix (of three characters or more, so with at least
    one letter after the dashes) of [--help], [--port], [--model] or
    [--vad_threshold] parses exactly like the one that starts with the full
    option, with the value given as the next string or attached by ["="]. *)
Theorem abbreviated_option_parses_like_full
    (opt q : string) (rest : list string)
    (Hopt : In opt long_options)
    (Hprefix : String.prefix q opt = true)
    (Hlength : (3 <= String.length q)%nat) :
  parse_args parser (q :: rest) = parse_args parser (opt :: rest) /\
  forall s,
    parse_args parser ((q +:+ "=" +:+ s) :: rest) =
    parse_args parser ((opt +:+ "=" +:+ s) :: rest).
Proof.
  destruct (abbreviation_is_read_as_option opt q Hopt Hprefix Hlength)
    as (a & Hq & Hpq & Hpo & Hvalue).
  split.
  - assert (Ho : String.eqb opt "--" = false)
      by (destruct Hopt as [<-|[<-|[<-|[<-|[]]]]]; reflexivity).
    exact (same_option_same_result parser q opt _ a rest Hq Ho Hpq Hpo eq_refl).
  - intros s. destruct (Hvalue s) as (Hq' & Ho' & Hpq' & Hpo').
    exact (same_option_same_result parser _ _ _ a rest Hq' Ho' Hpq' Hpo' eq_refl).
Qed.

Lemma abbreviated_option_parses_like_full_witness :
  parse_args parser ["--vad"; "0.15"] = parse_args parser ["--vad_threshold"; "0.15"].
Proof.
  exact (proj1 (abbreviated_option_parses_like_full "--vad_threshold" "--vad"
                  ["0.15"] (or_intror (or_intror (or_intror (or_introl eq_refl))))
                  eq_refl ltac:(cbn; lia))).
Defined.

(** *** From the command line to the detector *)

(** The script, then a detector built without threshold. *)
Lemma script_then_detector
    (lib : library) (argv : list string) (args : namespace) (w : world)
    (v : pyval) (s : string) (frame_rate : option pyval) :
  parse_args parser argv = Ok args ->
  args !! "vad_threshold" = Some v ->
  py_str v = Ok s ->
  delegations
    (trace (snd (VoiceActivityDetector lib None frame_rate
                   (snd (script lib argv w))))) =
  (delegations (trace w) ++
   match PyFloat.of_string s with
   | Some y => [(PyFloat y, default (PyInt 16000) frame_rate)]
   | None => []
   end)%list.
Proof.
  intros Hparse Hv Hs.
  unfold script, bind, install_patch.
  destruct (main_unfold lib argv args
              {| environ := environ w; vad_init := patched; trace := trace w |}
              Hparse)
    as (port & model & thr & t & path & line & _ & _ & Hthr & Ht & _ & _ & Hmain).
  rewrite Hv in Hthr. injection Hthr as <-.
  rewrite Hs in Ht. injection Ht as <-.
  rewrite Hmain. unfold VoiceActivityDetector.
  destruct (transcription_server_raises lib);
    cbn [snd after_setenv after_run vad_init environ trace];
    rewrite patched_init_delegations; unfold configured_threshold;
    unfold after_setenv, after_run; cbn [environ trace];
    rewrite lookup_insert_eq; cbn [py_float or_raise];
    rewrite !delegations_app; cbn [delegations flat_map app];
    rewrite !app_nil_r; destruct (PyFloat.of_string s); reflexivity.
Qed.

(** X11. The threshold of the command line reaches the detector through
    the environment variable as text: after the script has run on an
    accepted command line with threshold [x], whether the server started
    or failed, a detector built without threshold is constructed with
    [float(str(x))], and with the library's frame rate or 16000. *)
Theorem command_line_threshold_reaches_detector
    (lib : library) (argv : list string) (args : namespace) (w : world)
    (x y : PyFloat.float) (frame_rate : option pyval)
    (Hparse : parse_args parser argv = Ok args)
    (Hthr : args !! "vad_threshold" = Some (PyFloat x))
    (Hback : PyFloat.of_string (PyFloat.repr x) = Some y) :
  delegations
    (trace (snd (VoiceActivityDetector lib None frame_rate
                   (snd (script lib argv w))))) =
  (delegations (trace w) ++ [(PyFloat y, default (PyInt 16000) frame_rate)])%list.
Proof.
  rewrite (script_then_detector lib argv args w (PyFloat x) (PyFloat.repr x)
             frame_rate Hparse Hthr eq_refl).
  rewrite Hback. reflexivity.
Qed.

Lemma command_line_threshold_reaches_detector_witness :
  delegations
    (trace (snd (VoiceActivityDetector quiet_library None None
                   (snd (script quiet_library ["--vad_threshold"; "0.15"]
                           (fresh ∅)))))) =
  [(PyFloat (S754_finite false 5404319552844595 (-55)), PyInt 16000)].
Proof.
  exact (command_line_threshold_reaches_detector quiet_library
           ["--vad_threshold"; "0.15"]
           (<["vad_threshold" := PyFloat (S754_finite false 5404319552844595 (-55))]>
              (initial_namespace parser))
           (fresh ∅) (S754_finite false 5404319552844595 (-55))
           (S754_finite false 5404319552844595 (-55)) None
           eq_refl eq_refl eq_refl).
Defined.

Lemma special_float_reads_back (x : PyFloat.float) :
  is_special x = true -> PyFloat.of_string (PyFloat.repr x) = Some x.
Proof.
  destruct x as [[|]|[|]| |sg m e]; intros H; try discriminate;
    vm_compute; reflexivity.
Qed.

(** X12. Zeros, infinities and NaN survive the trip: after the script has
    run on an accepted command line whose threshold is one of them, a
    detector built without threshold is constructed with that very
    float. *)
Theorem special_threshold_reaches_detector_unchanged
    (lib : library) (argv : list string) (args : namespace) (w : world)
    (x : PyFloat.float) (frame_rate : option pyval)
    (Hparse : parse_args parser argv = Ok args)
    (Hthr : args !! "vad_threshold" = Some (PyFloat x))
    (Hspecial : is_special x = true) :
  delegations
    (trace (snd (VoiceActivityDetector lib None frame_rate
                   (snd (script lib argv w))))) =
  (delegations (trace w) ++ [(PyFloat x, default (PyInt 16000) frame_rate)])%list.
Proof.
  rewrite (script_then_detector lib argv args w (PyFloat x) (PyFloat.repr x)
             frame_rate Hparse Hthr eq_refl).
  rewrite (special_float_reads_back x Hspecial). reflexivity.
Qed.

Lemma special_threshold_reaches_detector_unchanged_witness :
  delegations
    (trace (snd (VoiceActivityDetector quiet_library None None
                   (snd (script quiet_library ["--vad_threshold"; "inf"]
                           (fresh ∅)))))) =
  [(PyFloat (S754_infinity false), PyInt 16000)].
Proof.
  exact (special_threshold_reaches_detector_unchanged quiet_library
           ["--vad_threshold"; "inf"]
           (<["vad_threshold" := PyFloat (S754_infinity false)]>
              (initial_namespace parser))
           (fresh ∅) (S754_infinity false) None eq_refl eq_refl eq_refl).
Defined.

(** *** Asking for help *)


